(** * tfjs-umap: a shallow embedding of [src/umap.js] and [src/utils.js]

    The development follows the two modules of the library:

    - [utils.js]: the Tausworthe-style generator [tauRandInt] / [tauRand]
      working on a three-word state array, and the curve fitter
      [curveFit] / [findABParams] built on TensorFlow.js calls;
    - [umap.js]: the [UMAP] class, its constructor (defaults through the
      [x || d] idiom) and the asynchronous methods [fit] and
      [fitTransform].

    JavaScript numbers that the JSDoc types as [int] are integers of [Z];
    numbers typed [float] are IEEE-754 binary64 values ([PrimFloat.float]).
    Calls into the host ([Math.random]) and into TensorFlow.js numeric
    kernels are taken from an environment. *)

From Stdlib Require Import ZArith Lia Floats Uint63 String.
From stdpp Require Import base option list gmap.

Set Warnings "-inexact-float".

Local Open Scope Z_scope.

(** ** 32-bit integer operators of JavaScript *)

Module JS.

(** ECMAScript [ToInt32] on an integer-valued number: reduce modulo
    [2^32], then read the result as a two's-complement value. *)
Definition ToInt32 (z : Z) : Z :=
  let int32bit := z mod 2 ^ 32 in
  if 2 ^ 31 <=? int32bit then int32bit - 2 ^ 32 else int32bit.

(** [ToUint32(n) & 0x1F], the shift count of [<<] and [>>]. *)
Definition shiftCount (n : Z) : Z := (n mod 2 ^ 32) mod 32.

(** [a & b] *)
Definition band (a b : Z) : Z := Z.land (ToInt32 a) (ToInt32 b).

(** [a ^ b] *)
Definition bxor (a b : Z) : Z := Z.lxor (ToInt32 a) (ToInt32 b).

(** [a << n]: the shifted value wraps around to 32 bits. *)
Definition shl (a n : Z) : Z := ToInt32 (Z.shiftl (ToInt32 a) (shiftCount n)).

(** [a >> n]: sign-propagating right shift. *)
Definition shr (a n : Z) : Z := Z.shiftr (ToInt32 a) (shiftCount n).

(** The signed 32-bit range. *)
Definition int32 (z : Z) : Prop := - 2 ^ 31 <= z <= 2 ^ 31 - 1.

(** An integer as a JavaScript number (exact for [|z| < 2^53]). *)
Definition number_of_int (z : Z) : float :=
  if z <? 0 then PrimFloat.opp (PrimFloat.of_uint63 (Uint63.of_Z (- z)))
  else PrimFloat.of_uint63 (Uint63.of_Z z).

End JS.

Notation "a '.&' b" := (JS.band a b) (at level 40, left associativity).
Notation "a '.^' b" := (JS.bxor a b) (at level 50, left associativity).
Notation "a '.<<' n" := (JS.shl a n) (at level 30, right associativity).
Notation "a '.>>' n" := (JS.shr a n) (at level 30, right associativity).

(** ** The random number generator of [utils.js] *)

(** The state is a JavaScript array of integers.  [word st i] is
    [state[i]] read as the operand of a bitwise operator: an index past
    the end reads [undefined], which [ToInt32] maps to [0]. *)
Definition word (st : list Z) (i : nat) : Z := default 0 (st !! i).

(** [state[i] = v].  Inside the array this replaces the element; at
    [i = length state] JavaScript extends the array by one element.
    [tauRandInt] writes the indices 0, 1, 2 in this order, so no write
    of it lands further than one past the end (see [writes_in_reach]). *)
Definition array_set (st : list Z) (i : nat) (v : Z) : list Z :=
  if (i <? length st)%nat then <[i := v]> st else st ++ [v].

(** [tauRandInt(state)]: the returned integer and the mutated state. *)
Definition tauRandInt (state : list Z) : Z * list Z :=
  let state := array_set state 0
    ((((word state 0 .& 4294967294) .<< 12) .& 0xffffffff) .^
     ((((word state 0 .<< 13) .& 0xffffffff) .^ word state 0) .>> 19)) in
  let state := array_set state 1
    ((((word state 1 .& 4294967288) .<< 4) .& 0xffffffff) .^
     ((((word state 1 .<< 2) .& 0xffffffff) .^ word state 1) .>> 25)) in
  let state := array_set state 2
    ((((word state 2 .& 4294967280) .<< 17) .& 0xffffffff) .^
     ((((word state 2 .<< 3) .& 0xffffffff) .^ word state 2) .>> 11)) in
  (word state 0 .^ word state 1 .^ word state 2, state).

(** The three right-hand sides of [tauRandInt], as functions of the word
    they read; [tauRandInt_lanes] relates them to the definition above. *)
Definition lane0 (s : Z) : Z :=
  (((s .& 4294967294) .<< 12) .& 0xffffffff) .^
  ((((s .<< 13) .& 0xffffffff) .^ s) .>> 19).

Definition lane1 (s : Z) : Z :=
  (((s .& 4294967288) .<< 4) .& 0xffffffff) .^
  ((((s .<< 2) .& 0xffffffff) .^ s) .>> 25).

Definition lane2 (s : Z) : Z :=
  (((s .& 4294967280) .<< 17) .& 0xffffffff) .^
  ((((s .<< 3) .& 0xffffffff) .^ s) .>> 11).

(** [tauRand(state)]: [randInt / 0x7fffffff] in binary64. *)
Definition tauRand (state : list Z) : float * list Z :=
  let '(randInt, state) := tauRandInt state in
  (PrimFloat.div (JS.number_of_int randInt) (JS.number_of_int 0x7fffffff), state).

(** A caller of the generator: a finite sequence of draws on one state
    array, each draw seeing the state left by the previous one. *)
Inductive rng_call := CallTauRandInt | CallTauRand.

Inductive rng_output :=
| OutInt (n : Z)
| OutFloat (x : float).

Definition rng_step (c : rng_call) (state : list Z) : rng_output * list Z :=
  match c with
  | CallTauRandInt => let '(n, state) := tauRandInt state in (OutInt n, state)
  | CallTauRand => let '(x, state) := tauRand state in (OutFloat x, state)
  end.

Fixpoint rng_run (calls : list rng_call) (state : list Z)
  : list rng_output * list Z :=
  match calls with
  | [] => ([], state)
  | c :: calls =>
      let '(o, state) := rng_step c state in
      let '(os, state) := rng_run calls state in
      (o :: os, state)
  end.

(** *** The generator among other objects

    A state array is a JavaScript object: it lives in a heap, is passed
    to [tauRandInt] and [tauRand] by reference and is mutated in place.
    [rest] stands for everything else a call could reach: the other
    globals, the generator behind [Math.random]. *)
Record memory (Rest : Type) := Memory {
  arrays : gmap nat (list Z);
  rest : Rest
}.
Arguments Memory {Rest} _ _.
Arguments arrays {Rest} _.
Arguments rest {Rest} _.

(** [tauRandInt(state)] for a reference [state]; [None] when the
    reference is not an array of the heap. *)
Definition tauRandInt_at {Rest} (state : nat) (m : memory Rest)
  : option (Z * memory Rest) :=
  match arrays m !! state with
  | Some st =>
      let '(n, st) := tauRandInt st in
      Some (n, Memory (<[state := st]> (arrays m)) (rest m))
  | None => None
  end.

(** [tauRand(state)] for a reference [state]. *)
Definition tauRand_at {Rest} (state : nat) (m : memory Rest)
  : option (float * memory Rest) :=
  match tauRandInt_at state m with
  | Some (randInt, m) =>
      Some (PrimFloat.div (JS.number_of_int randInt)
              (JS.number_of_int 0x7fffffff), m)
  | None => None
  end.

(** A sequence of draws, each on the state array its caller passes. *)
Definition rng_step_at {Rest} (c : rng_call * nat) (m : memory Rest)
  : option (rng_output * memory Rest) :=
  match c.1 with
  | CallTauRandInt =>
      match tauRandInt_at c.2 m with
      | Some (n, m) => Some (OutInt n, m)
      | None => None
      end
  | CallTauRand =>
      match tauRand_at c.2 m with
      | Some (x, m) => Some (OutFloat x, m)
      | None => None
      end
  end.

Fixpoint rng_run_at {Rest} (calls : list (rng_call * nat)) (m : memory Rest)
  : option (list rng_output * memory Rest) :=
  match calls with
  | [] => Some ([], m)
  | c :: calls =>
      match rng_step_at c m with
      | Some (o, m) =>
          match rng_run_at calls m with
          | Some (os, m) => Some (o :: os, m)
          | None => None
          end
      | None => None
      end
  end.

(** ** Completions of JavaScript calls *)

(** A call either completes normally or throws; for an [async] function
    these are the resolved and the rejected promise. *)
Inductive completion (A : Type) :=
| Normal (v : A)
| Throw (e : string).
Arguments Normal {A} v.
Arguments Throw {A} e.

Definition completion_map {A B} (f : A -> B) (c : completion A) : completion B :=
  match c with
  | Normal v => Normal (f v)
  | Throw e => Throw e
  end.

(** ** Tensors of TensorFlow.js *)

(** An immutable float32 tensor: its shape and its values in row-major
    order.  Boolean tensors hold 1 and 0. *)
Record tensor := Tensor { shape : list Z; vals : list float }.

Definition size_of_shape (sh : list Z) : nat :=
  Z.to_nat (foldr Z.mul 1 sh).

(** The values of [tf.zeros(shape)] and [tf.ones(shape)] for a shape
    without negative dimension; [call_tf_zeros] below is the call, which
    refuses the other shapes. *)
Definition tf_zeros (sh : list Z) : tensor :=
  Tensor sh (replicate (size_of_shape sh) 0%float).

Definition tf_ones (sh : list Z) : tensor :=
  Tensor sh (replicate (size_of_shape sh) 1%float).

(** [t.shape[0]] of a tensor of rank at least 1. *)
Definition shape0 (t : tensor) : Z := default 0 (shape t !! 0%nat).

(** The input data [X]: an array of [nSamples] rows of [nFeatures]
    numbers. *)
Definition dataset := list (list float).

(** ** The environment: host and TensorFlow.js kernels

    [Math.random] draws from a generator owned by the host, which no
    argument of the library seeds; the numeric kernels of TensorFlow.js
    (float32 arithmetic, the SGD optimizer with automatic
    differentiation) and the function [nearestNeighbors], which
    [umap.js] calls, are not part of the sources.  [umap.js] imports
    [euclidean] alone, so [findABParams] and [nearestNeighbors] are
    free identifiers of the module: what they denote is a matter of
    the scope the module runs in. *)
Class Environment := {
  host : Type;
  Math_random : host -> float * host;
  (** storing a number in a float32 tensor *)
  f32 : float -> float;
  k_add : float -> float -> float;
  k_sub : float -> float -> float;
  k_mul : float -> float -> float;
  k_div : float -> float -> float;
  k_pow : float -> float -> float;
  k_exp : float -> float;
  k_mean : list float -> float;
  k_norm : list float -> float;
  (** element [i] of [tf.linspace(start, stop, num)] *)
  k_linspace : float -> float -> nat -> nat -> float;
  (** [tf.train.sgd(learningRate).minimize(f)] on the two trainable
      variables: the closure [f] reads the variables, the call returns
      their updated values *)
  sgd_minimize : float -> (float * float -> tensor) -> float * float -> float * float;
  KNNIndices : Type;
  KNNDists : Type;
  RPForest : Type;
  nearestNeighbors :
    tensor -> Z -> (tensor -> tensor -> tensor) -> list float -> bool ->
    host -> completion (KNNIndices * KNNDists * RPForest) * host;
  (** whether the scope of [umap.js] binds the identifier
      [findABParams] (to the function of [utils.js]); the sources as
      given bind it nowhere *)
  findABParams_bound : bool
}.

Section Model.

Context {E : Environment}.

(** *** Tensor operations used by [utils.js] *)

Definition tf_scalar (x : float) : tensor := Tensor [] [f32 x].

(** [tf.tensor(X)] for a two-dimensional array. *)
Definition tf_tensor (X : dataset) : tensor :=
  match X with
  | [] => Tensor [0] []
  | row :: _ => Tensor [Z.of_nat (length X); Z.of_nat (length row)]
                       (f32 <$> concat X)
  end.

Definition tf_linspace (start stop : float) (num : nat) : tensor :=
  Tensor [Z.of_nat num] (k_linspace start stop num <$> seq 0 num).

(** Element-wise binary operation; a one-element operand is broadcast. *)
Definition broadcast (f : float -> float -> float) (x y : tensor) : tensor :=
  match vals x, vals y with
  | [u], _ :: _ :: _ => Tensor (shape y) (f u <$> vals y)
  | _, [v] => Tensor (shape x) ((fun u => f u v) <$> vals x)
  | _, _ => Tensor (shape x) (zip_with f (vals x) (vals y))
  end.

Definition tf_add := broadcast k_add.
Definition tf_sub := broadcast k_sub.
Definition tf_mul := broadcast k_mul.
Definition tf_div := broadcast k_div.
Definition tf_pow := broadcast k_pow.
Definition tf_less :=
  broadcast (fun u v => if PrimFloat.ltb u v then 1%float else 0%float).
Definition tf_greaterEqual :=
  broadcast (fun u v => if PrimFloat.leb v u then 1%float else 0%float).
Definition tf_exp (x : tensor) : tensor := Tensor (shape x) (k_exp <$> vals x).
Definition tf_square (x : tensor) : tensor := tf_mul x x.
Definition tf_mean (x : tensor) : tensor := Tensor [] [k_mean (vals x)].
Definition tf_norm (x : tensor) : tensor := Tensor [] [k_norm (vals x)].

(** [x.where(condition, y)], that is [tf.where(condition, x, y)]: a new
    tensor taking [x] where the condition holds and [y] elsewhere.  The
    receiver [x] is left as it is. *)
Definition tf_where (x condition y : tensor) : tensor :=
  Tensor (shape x)
    (zip_with (fun c xy => if PrimFloat.eqb c 0 then xy.2 else xy.1)
       (vals condition) (zip (vals x) (vals y))).

(** *** [utils.js] *)

Definition euclidean (x y : tensor) : tensor := tf_norm (tf_sub x y).

(** The [loss] closure of [curveFit]. *)
Definition loss (prediction labels : tensor) : tensor :=
  tf_mean (tf_square (tf_sub prediction labels)).

(** The [train] loop of [curveFit]: [numIterations] optimizer steps on
    the variables read by [predict]. *)
Fixpoint train (predict : float * float -> tensor -> tensor)
    (learningRate : float) (xs ys : tensor) (numIterations : nat)
    (variables : float * float) : float * float :=
  match numIterations with
  | O => variables
  | S n =>
      train predict learningRate xs ys n
        (sgd_minimize learningRate
           (fun current => loss (predict current xs) ys) variables)
  end.

Definition curveFit (predict : float * float -> tensor -> tensor)
    (xs ys : tensor) (variables : float * float) : float * float :=
  let numIterations := 75%nat in
  let learningRate := 0.5%float in
  train predict learningRate xs ys numIterations variables.

(** The [curve] closure of [findABParams]:
    [1.0 / (1.0 + a * x ** (2 * b))] on the current values of the
    variables [a] and [b]. *)
Definition curve (ab : float * float) (x : tensor) : tensor :=
  tf_div (tf_scalar 1)
    (tf_add (tf_scalar 1)
       (tf_mul (Tensor [] [ab.1])
          (tf_pow x (tf_mul (tf_scalar 2) (Tensor [] [ab.2]))))).

(** The sample points [xv] and the tensor [yv] that [findABParams]
    hands to [curveFit].  The two [yv.where(...)] expressions are
    evaluated and their results dropped, as in the source. *)
Definition findABParams_samples (spread minDist : float) : tensor * tensor :=
  let xv := tf_linspace 0 (PrimFloat.mul spread 3) 300 in
  let yv := tf_zeros (shape xv) in
  let _ := tf_where yv (tf_less xv (tf_scalar minDist)) (tf_ones (shape xv)) in
  let _ := tf_where yv
             (tf_greaterEqual xv (tf_scalar minDist))
             (tf_exp
                (tf_sub (tf_scalar 0)
                   (tf_div (tf_sub xv (tf_scalar minDist)) (tf_scalar spread)))) in
  (xv, yv).

(** [findABParams(spread, minDist)]: the final values of the two
    [tf.variable]s it returns, and the host generator after the two
    [Math.random()] draws. *)
Definition findABParams (spread minDist : float) (h : host)
  : (float * float) * host :=
  let '(ra, h) := Math_random h in
  let '(rb, h) := Math_random h in
  let variables := (f32 ra, f32 rb) in
  let '(xv, yv) := findABParams_samples spread minDist in
  (curveFit curve xv yv variables, h).

End Model.

(** ** The [UMAP] class of [umap.js] *)

(** JavaScript truthiness of the values a configuration can hold, as
    used by [x || d]. *)
Class Truthy (A : Type) := truthy : A -> bool.

#[export] Instance truthy_int : Truthy Z := fun n => negb (n =? 0).
#[export] Instance truthy_float : Truthy float :=
  fun x => negb (PrimFloat.eqb x 0 || PrimFloat.is_nan x).
#[export] Instance truthy_string : Truthy string :=
  fun s => match s with EmptyString => false | _ => true end.
#[export] Instance truthy_bool : Truthy bool := fun c => c.
(** arrays and functions are objects, which are always truthy *)
#[export] Instance truthy_array {A} : Truthy (list A) := fun _ => true.
#[export] Instance truthy_function {A B} : Truthy (A -> B) := fun _ => true.

(** [x || d] for an optional property [x] ([None] is [undefined]). *)
Definition or_default {A} `{Truthy A} (x : option A) (d : A) : A :=
  match x with
  | Some v => if truthy v then v else d
  | None => d
  end.

Notation "x '.||' d" := (or_default x d) (at level 60, no associativity).

(** A curve parameter held by [this.a] / [this.b]: [undefined], a number
    given in the configuration, or the [tf.variable] produced by
    [findABParams] (with its final value). *)
Inductive curve_param :=
| Undefined
| Number (x : float)
| Variable_ (x : float).

Definition curve_param_of (x : option float) : curve_param :=
  match x with
  | Some v => Number v
  | None => Undefined
  end.

(** [p === undefined] *)
Definition is_undefined (p : curve_param) : bool :=
  match p with
  | Undefined => true
  | _ => false
  end.

(** The global object, which the free identifier [self] denotes in a
    browser window or worker. *)
Record globals := Globals { g_embedding_ : option tensor }.

Section Umap.

Context {E : Environment}.

(** The [config] argument of the constructor; every property is
    optional, typed as in the JSDoc of the constructor. *)
Record config := Config {
  cfg_nNeighbors : option Z;
  cfg_nComponents : option Z;
  cfg_metric : option (tensor -> tensor -> tensor);
  cfg_metricArgs : option (list float);
  cfg_nEpochs : option Z;
  cfg_learningRate : option float;
  cfg_init : option string;
  cfg_minDist : option float;
  cfg_spread : option float;
  cfg_setOpMixRatio : option float;
  cfg_localConnectivity : option Z;
  cfg_repulsionStrength : option float;
  cfg_negativeSampleRate : option Z;
  cfg_transformQueueSize : option float;
  cfg_a : option float;
  cfg_b : option float;
  cfg_angularRPForest : option bool
}.

(** [{}] *)
Definition empty_config : config :=
  Config None None None None None None None None None None None None None
         None None None None.

(** The properties the constructor assigns and no method reassigns. *)
Record hyperparameters := Hyperparameters {
  nNeighbors : Z;
  nComponents : Z;
  nEpochs : option Z;
  metric : tensor -> tensor -> tensor;
  metricArgs : list float;
  learningRate : float;
  init : string;
  minDist : float;
  spread : float;
  setOpMixRatio : float;
  localConnectivity : Z;
  repulsionStrength : float;
  negativeSampleRate : Z;
  transformQueueSize : float;
  angularRPForest : bool
}.

(** A [UMAP] instance: the hyperparameters, the curve parameters and
    the properties [fit] adds ([None] while a property is not set). *)
Record UMAP := MkUMAP {
  hyper :> hyperparameters;
  a : curve_param;
  b : curve_param;
  _rawData : option dataset;
  _initialAlpha : option float;
  _nNeighbors : option Z;
  _KNNIndices : option KNNIndices;
  _KNNDists : option KNNDists;
  _RPForest : option RPForest;
  embedding_ : option tensor
}.

Definition set_a (v : curve_param) (u : UMAP) : UMAP :=
  MkUMAP u v (b u) (_rawData u) (_initialAlpha u) (_nNeighbors u)
    (_KNNIndices u) (_KNNDists u) (_RPForest u) (embedding_ u).
Definition set_b (v : curve_param) (u : UMAP) : UMAP :=
  MkUMAP u (a u) v (_rawData u) (_initialAlpha u) (_nNeighbors u)
    (_KNNIndices u) (_KNNDists u) (_RPForest u) (embedding_ u).
Definition set__rawData (v : dataset) (u : UMAP) : UMAP :=
  MkUMAP u (a u) (b u) (Some v) (_initialAlpha u) (_nNeighbors u)
    (_KNNIndices u) (_KNNDists u) (_RPForest u) (embedding_ u).
Definition set__initialAlpha (v : float) (u : UMAP) : UMAP :=
  MkUMAP u (a u) (b u) (_rawData u) (Some v) (_nNeighbors u)
    (_KNNIndices u) (_KNNDists u) (_RPForest u) (embedding_ u).
Definition set__nNeighbors (v : Z) (u : UMAP) : UMAP :=
  MkUMAP u (a u) (b u) (_rawData u) (_initialAlpha u) (Some v)
    (_KNNIndices u) (_KNNDists u) (_RPForest u) (embedding_ u).
Definition set__KNNIndices (v : KNNIndices) (u : UMAP) : UMAP :=
  MkUMAP u (a u) (b u) (_rawData u) (_initialAlpha u) (_nNeighbors u)
    (Some v) (_KNNDists u) (_RPForest u) (embedding_ u).
Definition set__KNNDists (v : KNNDists) (u : UMAP) : UMAP :=
  MkUMAP u (a u) (b u) (_rawData u) (_initialAlpha u) (_nNeighbors u)
    (_KNNIndices u) (Some v) (_RPForest u) (embedding_ u).
Definition set__RPForest (v : RPForest) (u : UMAP) : UMAP :=
  MkUMAP u (a u) (b u) (_rawData u) (_initialAlpha u) (_nNeighbors u)
    (_KNNIndices u) (_KNNDists u) (Some v) (embedding_ u).

(** [constructor(config)]; [None] is a call without argument. *)
Definition constructor (config : option config) : UMAP :=
  let c := default empty_config config in
  {| hyper := {|
       nNeighbors := cfg_nNeighbors c .|| 15;
       nComponents := cfg_nComponents c .|| 2;
       nEpochs := cfg_nEpochs c;
       metric := cfg_metric c .|| euclidean;
       metricArgs := cfg_metricArgs c .|| [];
       learningRate := cfg_learningRate c .|| 1.0%float;
       init := cfg_init c .|| "spectral"%string;
       minDist := cfg_minDist c .|| 0.1%float;
       spread := cfg_spread c .|| 1.0%float;
       setOpMixRatio := cfg_setOpMixRatio c .|| 1.0%float;
       localConnectivity := cfg_localConnectivity c .|| 1;
       repulsionStrength := cfg_repulsionStrength c .|| 1.0%float;
       negativeSampleRate := cfg_negativeSampleRate c .|| 5;
       transformQueueSize := cfg_transformQueueSize c .|| 4.0%float;
       angularRPForest := cfg_angularRPForest c .|| false |};
     a := curve_param_of (cfg_a c);
     b := curve_param_of (cfg_b c);
     _rawData := None;
     _initialAlpha := None;
     _nNeighbors := None;
     _KNNIndices := None;
     _KNNDists := None;
     _RPForest := None;
     embedding_ := None |}.

(** [new UMAP(config)]: the constructor has no [throw]. *)
Definition new_UMAP (config : option config) : completion UMAP :=
  Normal (constructor config).

(** *** The methods

    A method runs on the instance [this], the global object [self] and
    the host generator; the calls that leave [umap.js] are logged.
    [umap.js] imports [euclidean] alone: evaluating [findABParams]
    throws a [ReferenceError] unless the scope binds the identifier,
    and [nearestNeighbors], which no module defines, comes from the
    environment.  The log holds the calls of [findABParams] that are
    made, and the call expressions of [nearestNeighbors] that are
    reached, with the values of their arguments: how such a call
    completes, by a [ReferenceError] in the sources, is the
    environment's. *)
Inductive call :=
| Call_findABParams (spread minDist : float)
| Call_nearestNeighbors (tX : tensor) (k : Z)
    (metric : tensor -> tensor -> tensor) (metricArgs : list float)
    (angular : bool).

Record world := World {
  this : UMAP;
  self : globals;
  random : host;
  calls : list call
}.

Definition M (A : Type) : Type := world -> completion A * world.

Definition ret {A} (v : A) : M A := fun w => (Normal v, w).

Definition bind {A B} (m : M A) (k : A -> M B) : M B :=
  fun w =>
    match m w with
    | (Normal v, w) => k v w
    | (Throw e, w) => (Throw e, w)
    end.

Definition get_this : M UMAP := fun w => (Normal (this w), w).

Definition update_this (f : UMAP -> UMAP) : M unit :=
  fun w => (Normal tt, World (f (this w)) (self w) (random w) (calls w)).

Definition update_self (f : globals -> globals) : M unit :=
  fun w => (Normal tt, World (this w) (f (self w)) (random w) (calls w)).

(** [await findABParams(spread, minDist)]: the identifier is resolved
    first; unbound, the expression throws before any call is made. *)
Definition call_findABParams (spread minDist : float) : M (float * float) :=
  fun w =>
    if findABParams_bound then
      let '(ab, h) := findABParams spread minDist (random w) in
      (Normal ab,
       World (this w) (self w) h (calls w ++ [Call_findABParams spread minDist]))
    else
      (Throw "ReferenceError: findABParams is not defined", w).

(** [tf.zeros(shape)] as a call: TensorFlow.js refuses a shape with a
    negative dimension (the text of its error is not modelled). *)
Definition call_tf_zeros (sh : list Z) : M tensor :=
  fun w =>
    if forallb (fun d => 0 <=? d) sh then (Normal (tf_zeros sh), w)
    else (Throw "Error: tf.zeros: negative dimension", w).

(** [await nearestNeighbors(tX, k, metric, metricArgs, angular)] *)
Definition call_nearestNeighbors (tX : tensor) (k : Z)
    (metric : tensor -> tensor -> tensor) (metricArgs : list float)
    (angular : bool) : M (KNNIndices * KNNDists * RPForest) :=
  fun w =>
    let '(r, h) := nearestNeighbors tX k metric metricArgs angular (random w) in
    (r, World (this w) (self w) h
          (calls w ++ [Call_nearestNeighbors tX k metric metricArgs angular])).

End Umap.

Notation "x <- m ;; k" := (bind m (fun x => k))
  (at level 100, m at next level, right associativity).
Notation "m ;;; k" := (bind m (fun _ => k))
  (at level 100, right associativity).

(** What the promise of [fit] resolves to: [this] on the early return,
    [undefined] at the end of the body. *)
Inductive fit_value := Returns_this | Returns_undefined.

Section Methods.

Context {E : Environment}.

(** The tail of [fit] after [this._nNeighbors] is set: the neighbor
    search and the three assignments of its result.  Both branches
    that reach it have assigned [this._nNeighbors]. *)
Definition fit_neighbors (tX : tensor) : M fit_value :=
  u <- get_this ;;
  r <- call_nearestNeighbors tX (default 0 (_nNeighbors u)) (metric u)
         (metricArgs u) (angularRPForest u) ;;
  update_this (set__KNNIndices r.1.1) ;;;
  update_this (set__KNNDists r.1.2) ;;;
  update_this (set__RPForest r.2) ;;;
  ret Returns_undefined.

(** [async fit(X)] *)
Definition fit (X : dataset) : M fit_value :=
  update_this (set__rawData X) ;;;
  u <- get_this ;;
  (if is_undefined (a u) || is_undefined (b u) then
     ab <- call_findABParams (spread u) (minDist u) ;;
     update_this (set_a (Variable_ ab.1)) ;;;
     update_this (set_b (Variable_ ab.2))
   else ret tt) ;;;
  u <- get_this ;;
  update_this (set__initialAlpha (learningRate u)) ;;;
  let tX := tf_tensor X in
  u <- get_this ;;
  if shape0 tX <=? nNeighbors u then
    if shape0 tX =? 1 then
      zeros <- call_tf_zeros [1; nComponents u] ;;
      update_self (fun _ => Globals (Some zeros)) ;;;
      ret Returns_this
    else
      update_this (set__nNeighbors (shape0 tX - 1)) ;;;
      fit_neighbors tX
  else
    update_this (set__nNeighbors (nNeighbors u)) ;;;
    fit_neighbors tX.

(** [async fitTransform(X)] *)
Definition fitTransform (X : dataset) : M (option tensor) :=
  fit X ;;;
  u <- get_this ;;
  ret (embedding_ u).

(** A method call on an instance, from a state of the global object
    and of the host generator, with an empty call log. *)
Definition run {A} (m : M A) (u : UMAP) (g : globals) (h : host)
  : completion A * world :=
  m (World u g h []).

(** The world after the first three statements of [fit], on the paths
    that get past them (the curve parameters were both supplied, or the
    call of [findABParams] returned); [fit_unfold] relates it to [fit]. *)
Definition after_curve_params (X : dataset) (w : world) : world :=
  let u := set__rawData X (this w) in
  if is_undefined (a u) || is_undefined (b u) then
    let r := findABParams (spread u) (minDist u) (random w) in
    World (set__initialAlpha (learningRate u)
             (set_b (Variable_ r.1.2) (set_a (Variable_ r.1.1) u)))
          (self w) r.2
          (calls w ++ [Call_findABParams (spread u) (minDist u)])
  else
    World (set__initialAlpha (learningRate u) u) (self w) (random w) (calls w).

(** Whether [fit] gets past its second statement: [this.a] and [this.b]
    are both defined, so that [findABParams] is not evaluated, or the
    scope binds the identifier. *)
Definition passes_curve_step (u : UMAP) : bool :=
  negb ((is_undefined (a u) || is_undefined (b u)) && negb findABParams_bound).

(** Classifying the logged calls. *)
Definition is_findABParams (c : call) : bool :=
  match c with
  | Call_findABParams _ _ => true
  | _ => false
  end.

Definition is_nearestNeighbors (c : call) : bool :=
  match c with
  | Call_nearestNeighbors _ _ _ _ _ => true
  | _ => false
  end.

End Methods.

(** ** A stand-in environment for examples

    The host generator replays a recorded list of [Math.random()] draws,
    the kernels work in binary64, the optimizer leaves the variables as
    they are, and [findABParams] and [nearestNeighbors] are unbound, as
    they are in [umap.js]: evaluating either throws a [ReferenceError]. *)
Definition replay_random (h : list float) : float * list float :=
  match h with
  | x :: h => (x, h)
  | [] => (0%float, [])
  end.

Definition replay : Environment := {|
  host := list float;
  Math_random := replay_random;
  f32 := fun x => x;
  k_add := PrimFloat.add;
  k_sub := PrimFloat.sub;
  k_mul := PrimFloat.mul;
  k_div := PrimFloat.div;
  k_pow := fun x _ => x;
  k_exp := fun x => x;
  k_mean := fun xs => default 0%float (head xs);
  k_norm := fun xs => default 0%float (head xs);
  k_linspace := fun start _ _ _ => start;
  sgd_minimize := fun _ _ variables => variables;
  KNNIndices := unit;
  KNNDists := unit;
  RPForest := unit;
  nearestNeighbors := fun _ _ _ _ _ h =>
    (Throw "ReferenceError: nearestNeighbors is not defined", h);
  findABParams_bound := false
|}.

(** Configurations used in the examples: [{a: 1.5}],
    [{setOpMixRatio: 0.0}], [{minDist: 2.0, spread: 1.0}] and
    [{setOpMixRatio: 2.0}]. *)
Definition config_a_only : config :=
  Config None None None None None None None None None None None None None
         None (Some 1.5%float) None None.

Definition config_zero_mix : config :=
  Config None None None None None None None None None (Some 0.0%float) None
         None None None None None None.

Definition config_minDist_above_spread : config :=
  Config None None None None None None None (Some 2.0%float) (Some 1.0%float)
         None None None None None None None None.

Definition config_mix_out_of_range : config :=
  Config None None None None None None None None None (Some 2.0%float) None
         None None None None None None.

(** ** The two [where] expressions of [findABParams]

    The values of the two expression statements [yv.where(...)] of
    [findABParams], which [findABParams_samples] evaluates and drops. *)
Section Where.

Context {E : Environment}.

(** [yv.where(xv.less(tf.scalar(minDist)), tf.ones(xv.shape))] *)
Definition findABParams_where_less (spread minDist : float) : tensor :=
  let xv := tf_linspace 0 (PrimFloat.mul spread 3) 300 in
  let yv := tf_zeros (shape xv) in
  tf_where yv (tf_less xv (tf_scalar minDist)) (tf_ones (shape xv)).

(** [yv.where(xv.greaterEqual(tf.scalar(minDist)), tf.exp(...))] *)
Definition findABParams_where_greaterEqual (spread minDist : float) : tensor :=
  let xv := tf_linspace 0 (PrimFloat.mul spread 3) 300 in
  let yv := tf_zeros (shape xv) in
  tf_where yv
    (tf_greaterEqual xv (tf_scalar minDist))
    (tf_exp
       (tf_sub (tf_scalar 0)
          (tf_div (tf_sub xv (tf_scalar minDist)) (tf_scalar spread)))).

End Where.

(** A second stand-in environment, which differs from [replay] in that
    both identifiers are bound: [findABParams] to the function of
    [utils.js], and [nearestNeighbors] to a search that answers every
    query with empty tables and the count it was asked for. *)
Definition replay_search : Environment := {|
  host := list float;
  Math_random := replay_random;
  f32 := fun x => x;
  k_add := PrimFloat.add;
  k_sub := PrimFloat.sub;
  k_mul := PrimFloat.mul;
  k_div := PrimFloat.div;
  k_pow := fun x _ => x;
  k_exp := fun x => x;
  k_mean := fun xs => default 0%float (head xs);
  k_norm := fun xs => default 0%float (head xs);
  k_linspace := fun start _ _ _ => start;
  sgd_minimize := fun _ _ variables => variables;
  KNNIndices := list (list Z);
  KNNDists := list (list float);
  RPForest := Z;
  nearestNeighbors := fun _ k _ _ _ h => (Normal ([], [], k), h);
  findABParams_bound := true
|}.

(** [{a: 1.5, b: 0.9}] and [{a: 1.5, b: 0.9, nComponents: -1}] *)
Definition config_a_and_b : config :=
  Config None None None None None None None None None None None None None
         None (Some 1.5%float) (Some 0.9%float) None.

Definition config_negative_nComponents : config :=
  Config None (Some (-1)) None None None None None None None None None None
         None None (Some 1.5%float) (Some 0.9%float) None.

(** [{nNeighbors: -1}] *)
Definition config_negative_nNeighbors : config :=
  Config (Some (-1)) None None None None None None None None None None None
         None None None None None.

(** * Properties *)

(** ** The generator *)

Section Int32.

Import JS.

Lemma ToInt32_int32 (z : Z) : int32 (ToInt32 z).
Proof.
  unfold int32, ToInt32.
  pose proof (Z.mod_pos_bound z (2 ^ 32) ltac:(lia)) as Hm.
  destruct (Z.leb_spec (2 ^ 31) (z mod 2 ^ 32)); lia.
Qed.

(** Exclusive or of two numbers below [2^n] stays below [2^n]. *)
Lemma lxor_below (n x y : Z) :
  0 <= n -> 0 <= x < 2 ^ n -> 0 <= y < 2 ^ n -> 0 <= Z.lxor x y < 2 ^ n.
Proof.
  intros Hn Hx Hy.
  assert (Hnn : 0 <= Z.lxor x y) by (apply Z.lxor_nonneg; lia).
  split; [exact Hnn |].
  destruct (Z.eq_dec (Z.lxor x y) 0) as [-> | Hne]; [lia |].
  apply Z.log2_lt_pow2; [lia |].
  pose proof (Z.log2_lxor x y ltac:(lia) ltac:(lia)) as Hl.
  assert (Hpos : 0 < n).
  { destruct (Z.eq_dec n 0) as [-> | ?]; [| lia].
    change (2 ^ 0) with 1 in *.
    assert (x = 0) as -> by lia. assert (y = 0) as -> by lia.
    now contradiction Hne. }
  assert (Hlx : Z.log2 x < n).
  { destruct (Z.eq_dec x 0) as [-> | ?]; [exact Hpos |].
    apply Z.log2_lt_pow2; lia. }
  assert (Hly : Z.log2 y < n).
  { destruct (Z.eq_dec y 0) as [-> | ?]; [exact Hpos |].
    apply Z.log2_lt_pow2; lia. }
  lia.
Qed.

(** The signed 32-bit range is closed under exclusive or. *)
Lemma lxor_int32 (x y : Z) : int32 x -> int32 y -> int32 (Z.lxor x y).
Proof.
  unfold int32. intros Hx Hy.
  destruct (Z.neg_nonneg_cases x) as [Hxn | Hxp],
           (Z.neg_nonneg_cases y) as [Hyn | Hyp].
  - rewrite <- Z.lxor_lnot_lnot.
    pose proof (lxor_below 31 (Z.lnot x) (Z.lnot y)) as H.
    unfold Z.lnot in *. lia.
  - rewrite <- (Z.lnot_involutive (Z.lxor x y)), Z.lnot_lxor_l.
    pose proof (lxor_below 31 (Z.lnot x) y) as H.
    unfold Z.lnot in *. lia.
  - rewrite <- (Z.lnot_involutive (Z.lxor x y)), Z.lnot_lxor_r.
    pose proof (lxor_below 31 x (Z.lnot y)) as H.
    unfold Z.lnot in *. lia.
  - pose proof (lxor_below 31 x y). lia.
Qed.

Lemma bxor_int32 (x y : Z) : int32 (x .^ y).
Proof. apply lxor_int32; apply ToInt32_int32. Qed.

End Int32.

Section Generator.

Import JS.

Lemma array_set_here (x : Z) (st : list Z) (v : Z) :
  array_set (x :: st) 0 v = v :: st.
Proof. reflexivity. Qed.

Lemma array_set_next (x : Z) (st : list Z) (i : nat) (v : Z) :
  array_set (x :: st) (S i) v = x :: array_set st i v.
Proof.
  unfold array_set. cbn [length]. change (S i <? S (length st))%nat with (i <? length st)%nat.
  destruct (i <? length st)%nat; reflexivity.
Qed.

Lemma array_set_end (v : Z) : array_set [] 0 v = [v].
Proof. reflexivity. Qed.

(** The three writes of [tauRandInt] land inside the array or exactly
    one past its end, whatever the array: index 0 on any array, index
    1 after index 0 is present, index 2 after index 1 is present. *)
Lemma writes_in_reach (st : list Z) (v0 v1 : Z) :
  (0 <= length st)%nat /\
  (1 <= length (array_set st 0 v0))%nat /\
  (2 <= length (array_set (array_set st 0 v0) 1 v1))%nat.
Proof.
  destruct st as [| x [| y st]]; cbn; lia.
Qed.

Lemma tauRandInt_lanes (st : list Z) :
  tauRandInt st =
    let st1 := array_set st 0 (lane0 (word st 0)) in
    let st2 := array_set st1 1 (lane1 (word st1 1)) in
    let st3 := array_set st2 2 (lane2 (word st2 2)) in
    (word st3 0 .^ word st3 1 .^ word st3 2, st3).
Proof. unfold tauRandInt, lane0, lane1, lane2. reflexivity. Qed.

Lemma lane0_int32 (s : Z) : int32 (lane0 s).
Proof. apply bxor_int32. Qed.

Lemma lane1_int32 (s : Z) : int32 (lane1 s).
Proof. apply bxor_int32. Qed.

Lemma lane2_int32 (s : Z) : int32 (lane2 s).
Proof. apply bxor_int32. Qed.

Lemma tauRandInt_three (s0 s1 s2 : Z) :
  tauRandInt [s0; s1; s2] =
    (lane0 s0 .^ lane1 s1 .^ lane2 s2, [lane0 s0; lane1 s1; lane2 s2]).
Proof.
  rewrite tauRandInt_lanes. cbv zeta.
  rewrite !array_set_here, !array_set_next, !array_set_here.
  reflexivity.
Qed.

(** C10: for every state array of three integers of any magnitude, the
    integer returned by [tauRandInt] lies in the signed 32-bit range
    [-2^31 .. 2^31 - 1], and the state after the call is again an array
    of three words, each in that range. *)
Theorem tauRandInt_int32 (s0 s1 s2 : Z) :
  int32 ((tauRandInt [s0; s1; s2]).1) /\
  exists t0 t1 t2,
    (tauRandInt [s0; s1; s2]).2 = [t0; t1; t2] /\
    int32 t0 /\ int32 t1 /\ int32 t2.
Proof.
  rewrite tauRandInt_three. cbn [fst snd]. split.
  - apply bxor_int32.
  - exists (lane0 s0), (lane1 s1), (lane2 s2).
    split; [reflexivity |].
    auto using lane0_int32, lane1_int32, lane2_int32.
Qed.

(** The same on an array of any length: the words 0, 1 and 2 are
    present after the call and lie in the signed 32-bit range. *)
Lemma tauRandInt_words (st : list Z) (i : nat) :
  (i < 3)%nat ->
  exists v, (tauRandInt st).2 !! i = Some v /\ int32 v.
Proof.
  intros Hi. rewrite tauRandInt_lanes. cbv zeta. cbn [snd].
  destruct st as [| x [| y [| z st]]];
    rewrite ?array_set_end, ?array_set_here, ?array_set_next,
            ?array_set_end, ?array_set_here, ?array_set_next,
            ?array_set_end, ?array_set_here;
    destruct i as [| [| [| i]]]; try lia; cbn [lookup list_lookup];
    eexists; (split; [reflexivity |]);
    auto using lane0_int32, lane1_int32, lane2_int32.
Qed.

(** Two call sequences in a row: the second runs from the state the
    first has left. *)
Lemma rng_run_app (cs1 cs2 : list rng_call) (st : list Z) :
  rng_run (cs1 ++ cs2) st =
    ((rng_run cs1 st).1 ++ (rng_run cs2 ((rng_run cs1 st).2)).1,
     (rng_run cs2 ((rng_run cs1 st).2)).2).
Proof.
  revert st. induction cs1 as [| c cs1 IH]; intros st.
  - cbn. now destruct (rng_run cs2 st).
  - cbn [app rng_run]. destruct (rng_step c st) as [o st1].
    rewrite IH. destruct (rng_run cs1 st1) as [os st2]. reflexivity.
Qed.

Lemma rng_run_length (cs : list rng_call) (st : list Z) :
  length ((rng_run cs st).1) = length cs.
Proof.
  revert st. induction cs as [| c cs IH]; intros st; [reflexivity |].
  cbn [rng_run]. destruct (rng_step c st) as [o st1].
  specialize (IH st1). destruct (rng_run cs st1) as [os st2].
  cbn in *. now rewrite IH.
Qed.

Lemma rng_step_at_spec {Rest} (c : rng_call) (r : nat) (m : memory Rest)
    (st : list Z) :
  arrays m !! r = Some st ->
  rng_step_at (c, r) m =
    Some ((rng_step c st).1,
          Memory (<[r := (rng_step c st).2]> (arrays m)) (rest m)).
Proof.
  intros Hst. unfold rng_step_at, tauRand_at, tauRandInt_at. cbn [fst snd].
  rewrite Hst. destruct c; cbn [rng_step]; unfold tauRand;
    destruct (tauRandInt st) as [n st']; reflexivity.
Qed.

(** C5: two independent runs of the generator, in two worlds that may
    differ in everything except the state arrays the calls are made on,
    produce the same output values under the same sequence of
    [tauRandInt] / [tauRand] calls and leave those arrays in the same
    final state; each run changes nothing but those arrays.  A call
    reads and writes the array it is given and nothing else. *)
Theorem rng_depends_on_state_only {Rest1 Rest2}
    (calls : list (rng_call * nat)) (m1 : memory Rest1) (m2 : memory Rest2) :
  (forall r, r ∈ calls.*2 -> is_Some (arrays m1 !! r)) ->
  (forall r, r ∈ calls.*2 -> arrays m1 !! r = arrays m2 !! r) ->
  exists outs m1' m2',
    rng_run_at calls m1 = Some (outs, m1') /\
    rng_run_at calls m2 = Some (outs, m2') /\
    (forall r, r ∈ calls.*2 -> arrays m1' !! r = arrays m2' !! r) /\
    (forall r, r ∉ calls.*2 ->
       arrays m1' !! r = arrays m1 !! r /\ arrays m2' !! r = arrays m2 !! r) /\
    rest m1' = rest m1 /\ rest m2' = rest m2.
Proof.
  revert m1 m2. induction calls as [| [c r] calls IH]; intros m1 m2 Halloc Hagree.
  - exists [], m1, m2. cbn. repeat split; auto.
  - assert (Hr : r ∈ ((c, r) :: calls).*2) by (cbn; apply elem_of_cons; auto).
    destruct (Halloc r Hr) as [st Hst1].
    assert (Hst2 : arrays m2 !! r = Some st) by (rewrite <- (Hagree r Hr); exact Hst1).
    cbn [rng_run_at].
    rewrite (rng_step_at_spec c r m1 st Hst1), (rng_step_at_spec c r m2 st Hst2).
    set (o := (rng_step c st).1). set (st' := (rng_step c st).2).
    set (n1 := Memory (<[r := st']> (arrays m1)) (rest m1)).
    set (n2 := Memory (<[r := st']> (arrays m2)) (rest m2)).
    assert (Hin : forall q, q ∈ calls.*2 -> q ∈ ((c, r) :: calls).*2)
      by (intros q Hq; cbn; apply elem_of_cons; auto).
    destruct (IH n1 n2) as (outs & m1' & m2' & Hrun1 & Hrun2 & Hsame & Hframe & Hrest1 & Hrest2).
    { intros q Hq. subst n1. cbn [arrays].
      destruct (decide (r = q)) as [-> | Hne];
        [rewrite lookup_insert_eq; eauto
        | rewrite lookup_insert_ne by exact Hne; auto]. }
    { intros q Hq. subst n1 n2. cbn [arrays].
      destruct (decide (r = q)) as [-> | Hne];
        [now rewrite !lookup_insert_eq
        | rewrite !lookup_insert_ne by exact Hne; auto]. }
    exists (o :: outs), m1', m2'. rewrite Hrun1, Hrun2.
    split; [reflexivity |]. split; [reflexivity |].
    split; [| split; [| split; [exact Hrest1 | exact Hrest2]]].
    + intros q Hq. cbn in Hq. apply elem_of_cons in Hq as [Heq | Hq].
      * subst q.
        destruct (decide (r ∈ calls.*2)) as [Hq | Hq]; [now apply Hsame |].
        destruct (Hframe r Hq) as [-> ->]. subst n1 n2. cbn [arrays].
        now rewrite !lookup_insert_eq.
      * now apply Hsame.
    + intros q Hq. cbn in Hq. apply not_elem_of_cons in Hq as [Hne Hq].
      destruct (Hframe q Hq) as [-> ->]. subst n1 n2. cbn [arrays].
      rewrite !lookup_insert_ne by (intros Heq; apply Hne; now rewrite Heq). auto.
Qed.

(** On one state array the run is the run on the array itself. *)
Lemma rng_run_at_one {Rest} (cs : list rng_call) (r : nat) (m : memory Rest)
    (st : list Z) :
  arrays m !! r = Some st ->
  rng_run_at ((fun c => (c, r)) <$> cs) m =
    Some ((rng_run cs st).1,
          Memory (<[r := (rng_run cs st).2]> (arrays m)) (rest m)).
Proof.
  revert m st. induction cs as [| c cs IH]; intros m st Hst.
  - cbn. rewrite insert_id by exact Hst. now destruct m.
  - cbn [fmap list_fmap rng_run_at rng_run].
    rewrite (rng_step_at_spec c r m st Hst).
    destruct (rng_step c st) as [o st1]. cbn [fst snd].
    rewrite (IH _ st1) by (cbn; apply lookup_insert_eq).
    cbn [arrays rest]. rewrite insert_insert_eq.
    destruct (rng_run cs st1) as [os st2]. reflexivity.
Qed.

(** C4: [tauRand] is documented to return a float in [[0, 1]], but it
    divides the signed result of [tauRandInt] by [0x7fffffff] without
    taking the absolute value.  On the state [[2147483648, 0, 0]] the
    integer drawn is -4096 and the float returned is negative. *)
Theorem tauRand_negative :
  (tauRandInt [2147483648; 0; 0]).1 = -4096 /\
  PrimFloat.ltb (tauRand [2147483648; 0; 0]).1 0 = true /\
  PrimFloat.leb 0 (tauRand [2147483648; 0; 0]).1 = false.
Proof. vm_compute. auto. Qed.

(** The state words of a running generator reach it as well: the
    third draw from the state [[42, 43, 44]] is negative. *)
Example tauRand_negative_third_draw :
  exists x, (rng_run [CallTauRand; CallTauRand; CallTauRand] [42; 43; 44]).1 !! 2%nat
              = Some (OutFloat x) /\
            PrimFloat.ltb x 0 = true.
Proof. eexists. vm_compute. split; reflexivity. Qed.

End Generator.

(** ** The generator on arbitrary arrays, and its degenerate states *)

Section GeneratorStates.

Import JS.

Lemma ToInt32_fixes_int32 (z : Z) : int32 z -> ToInt32 z = z.
Proof.
  unfold int32, ToInt32. intros Hz. cbv zeta.
  destruct (Z.neg_nonneg_cases z) as [Hneg | Hpos].
  - assert (Hm : z mod 2 ^ 32 = z + 2 ^ 32).
    { symmetry. apply Z.mod_unique with (q := -1); lia. }
    rewrite Hm. destruct (Z.leb_spec (2 ^ 31) (z + 2 ^ 32)); lia.
  - rewrite Z.mod_small by lia.
    destruct (Z.leb_spec (2 ^ 31) z); lia.
Qed.

Lemma ToInt32_idempotent (z : Z) : ToInt32 (ToInt32 z) = ToInt32 z.
Proof. apply ToInt32_fixes_int32, ToInt32_int32. Qed.

Lemma ToInt32_periodic (z k : Z) : ToInt32 (z + k * 2 ^ 32) = ToInt32 z.
Proof. unfold ToInt32. now rewrite Z.mod_add by lia. Qed.

(** [x & 0xffffffff] is [x] reduced to 32 bits: the mask is all ones. *)
Lemma band_all_ones (x : Z) : x .& 0xffffffff = ToInt32 x.
Proof.
  unfold band. change (ToInt32 0xffffffff) with (-1). apply Z.land_m1_r.
Qed.

Lemma bxor_ToInt32_l (x y : Z) : ToInt32 x .^ y = x .^ y.
Proof. unfold bxor. now rewrite ToInt32_idempotent. Qed.

Lemma lane_periodic (s k : Z) :
  lane0 (s + k * 2 ^ 32) = lane0 s /\
  lane1 (s + k * 2 ^ 32) = lane1 s /\
  lane2 (s + k * 2 ^ 32) = lane2 s.
Proof.
  unfold lane0, lane1, lane2, band, bxor, shl, shr.
  now rewrite !ToInt32_periodic.
Qed.

(** The closed form of [tauRandInt] on an array of any length. *)
Lemma tauRandInt_any (st : list Z) :
  tauRandInt st =
    (lane0 (word st 0) .^ lane1 (word st 1) .^ lane2 (word st 2),
     [lane0 (word st 0); lane1 (word st 1); lane2 (word st 2)] ++ drop 3 st).
Proof.
  rewrite tauRandInt_lanes. cbv zeta.
  destruct st as [| x [| y [| z st]]];
    rewrite ?array_set_end, ?array_set_here, ?array_set_next,
            ?array_set_end, ?array_set_here, ?array_set_next,
            ?array_set_end, ?array_set_here;
    reflexivity.
Qed.

(** X1: on a state array of any length, each of the words 0, 1, 2 after
    [tauRandInt] is a function of the word at the same index before the
    call (a missing word reads as 0), the elements from index 3 on are
    left as they are, and an array shorter than 3 comes out with
    exactly 3 elements. *)
Theorem tauRandInt_frame (st : list Z) :
  take 3 (tauRandInt st).2 =
    [lane0 (word st 0); lane1 (word st 1); lane2 (word st 2)] /\
  drop 3 (tauRandInt st).2 = drop 3 st /\
  length (tauRandInt st).2 = Nat.max 3 (length st).
Proof.
  rewrite tauRandInt_any. cbn [snd].
  repeat split.
  cbn [app length]. rewrite length_drop. lia.
Qed.

(** X2: the generator sees its state words modulo [2^32] only: adding
    any multiples of [2^32] to the three words changes neither the
    integer returned nor the state stored. *)
Theorem tauRandInt_mod_2_32 (s0 s1 s2 k0 k1 k2 : Z) :
  tauRandInt [s0 + k0 * 2 ^ 32; s1 + k1 * 2 ^ 32; s2 + k2 * 2 ^ 32] =
    tauRandInt [s0; s1; s2].
Proof.
  rewrite !tauRandInt_three.
  destruct (lane_periodic s0 k0) as (-> & _ & _).
  destruct (lane_periodic s1 k1) as (_ & -> & _).
  destruct (lane_periodic s2 k2) as (_ & _ & ->).
  reflexivity.
Qed.

(** X3: the masks [& 0xffffffff] of [tauRandInt] change nothing: the new
    state words are the same as those of the three update expressions
    written without them. *)
Theorem tauRandInt_masks_redundant (s0 s1 s2 : Z) :
  (tauRandInt [s0; s1; s2]).2 =
    [ ((s0 .& 4294967294) .<< 12) .^ (((s0 .<< 13) .^ s0) .>> 19);
      ((s1 .& 4294967288) .<< 4) .^ (((s1 .<< 2) .^ s1) .>> 25);
      ((s2 .& 4294967280) .<< 17) .^ (((s2 .<< 3) .^ s2) .>> 11) ].
Proof.
  rewrite tauRandInt_three. cbn [snd].
  unfold lane0, lane1, lane2.
  rewrite !band_all_ones, !bxor_ToInt32_l.
  reflexivity.
Qed.

Lemma small_seed_lanes (s0 s1 s2 : Z) :
  0 <= s0 < 2 -> 0 <= s1 < 8 -> 0 <= s2 < 16 ->
  lane0 s0 = 0 /\ lane1 s1 = 0 /\ lane2 s2 = 0.
Proof.
  intros H0 H1 H2.
  assert (C0 : s0 = 0 \/ s0 = 1) by lia.
  assert (C1 : s1 = 0 \/ s1 = 1 \/ s1 = 2 \/ s1 = 3 \/ s1 = 4 \/ s1 = 5 \/
               s1 = 6 \/ s1 = 7) by lia.
  assert (C2 : s2 = 0 \/ s2 = 1 \/ s2 = 2 \/ s2 = 3 \/ s2 = 4 \/ s2 = 5 \/
               s2 = 6 \/ s2 = 7 \/ s2 = 8 \/ s2 = 9 \/ s2 = 10 \/ s2 = 11 \/
               s2 = 12 \/ s2 = 13 \/ s2 = 14 \/ s2 = 15) by lia.
  repeat split.
  - destruct C0 as [-> | ->]; reflexivity.
  - repeat (destruct C1 as [-> | C1]; [reflexivity |]). subst. reflexivity.
  - repeat (destruct C2 as [-> | C2]; [reflexivity |]). subst. reflexivity.
Qed.

(** X4: a state whose words have only the low bits that the lane masks
    clear ([0 <= s0 < 2], [0 <= s1 < 8], [0 <= s2 < 16]) is
    degenerate: one call of [tauRandInt] returns 0 and leaves the
    all-zero state. *)
Theorem tauRandInt_small_seed (s0 s1 s2 : Z) :
  0 <= s0 < 2 -> 0 <= s1 < 8 -> 0 <= s2 < 16 ->
  tauRandInt [s0; s1; s2] = (0, [0; 0; 0]).
Proof.
  intros H0 H1 H2. rewrite tauRandInt_three.
  destruct (small_seed_lanes s0 s1 s2 H0 H1 H2) as (-> & -> & ->).
  reflexivity.
Qed.

(** A draw from the all-zero state returns zero and keeps the state. *)
Lemma rng_step_zero (c : rng_call) :
  rng_step c [0; 0; 0] = (OutInt 0, [0; 0; 0]) \/
  rng_step c [0; 0; 0] = (OutFloat 0%float, [0; 0; 0]).
Proof. destruct c; [left | right]; vm_compute; reflexivity. Qed.

Lemma rng_run_zero (cs : list rng_call) :
  (rng_run cs [0; 0; 0]).2 = [0; 0; 0] /\
  Forall (fun o => o = OutInt 0 \/ o = OutFloat 0%float) (rng_run cs [0; 0; 0]).1.
Proof.
  induction cs as [| c cs [IHst IHout]]; [split; [reflexivity | constructor] |].
  cbn [rng_run].
  destruct (rng_step_zero c) as [-> | ->];
    destruct (rng_run cs [0; 0; 0]) as [os st]; cbn [fst snd] in *;
    (split; [exact IHst | constructor; auto]).
Qed.

(** X5: the all-zero state is absorbing, and so is every degenerate
    seed after its first draw: whatever sequence of [tauRandInt] and
    [tauRand] calls follows, every value drawn is the integer 0 or the
    float 0 and the state ends as [[0, 0, 0]]. *)
Theorem rng_run_small_seed (s0 s1 s2 : Z) (c : rng_call) (cs : list rng_call) :
  0 <= s0 < 2 -> 0 <= s1 < 8 -> 0 <= s2 < 16 ->
  (rng_run (c :: cs) [s0; s1; s2]).2 = [0; 0; 0] /\
  Forall (fun o => o = OutInt 0 \/ o = OutFloat 0%float)
    (rng_run (c :: cs) [s0; s1; s2]).1.
Proof.
  intros H0 H1 H2.
  assert (Hstep : rng_step c [s0; s1; s2] = rng_step c [0; 0; 0]).
  { assert (Hint : tauRandInt [s0; s1; s2] = tauRandInt [0; 0; 0]).
    { rewrite !tauRandInt_three.
      destruct (small_seed_lanes s0 s1 s2 H0 H1 H2) as (-> & -> & ->).
      reflexivity. }
    destruct c; cbn [rng_step]; unfold tauRand; now rewrite Hint. }
  change (rng_run (c :: cs) [s0; s1; s2])
    with (let '(o, state) := rng_step c [s0; s1; s2] in
          let '(os, state) := rng_run cs state in (o :: os, state)).
  rewrite Hstep.
  change (let '(o, state) := rng_step c [0; 0; 0] in
          let '(os, state) := rng_run cs state in (o :: os, state))
    with (rng_run (c :: cs) [0; 0; 0]).
  apply rng_run_zero.
Qed.

Lemma rng_step_state (c : rng_call) (st : list Z) :
  (rng_step c st).2 = (tauRandInt st).2.
Proof.
  destruct c; cbn [rng_step]; unfold tauRand;
    destruct (tauRandInt st); reflexivity.
Qed.

(** X6: drawing a float advances the state exactly as drawing an integer
    does: two call sequences of the same length leave the same state,
    whatever mix of [tauRandInt] and [tauRand] each is made of. *)
Theorem rng_state_by_count (cs1 cs2 : list rng_call) (st : list Z) :
  length cs1 = length cs2 ->
  (rng_run cs1 st).2 = (rng_run cs2 st).2.
Proof.
  revert cs2 st. induction cs1 as [| c1 cs1 IH]; intros [| c2 cs2] st Hlen;
    try discriminate Hlen; [reflexivity |].
  injection Hlen as Hlen. cbn [rng_run].
  pose proof (rng_step_state c1 st) as H1.
  pose proof (rng_step_state c2 st) as H2.
  destruct (rng_step c1 st) as [o1 st1], (rng_step c2 st) as [o2 st2].
  cbn [snd] in H1, H2. subst st1 st2.
  specialize (IH cs2 (tauRandInt st).2 Hlen).
  destruct (rng_run cs1 (tauRandInt st).2) as [os1 e1],
           (rng_run cs2 (tauRandInt st).2) as [os2 e2].
  exact IH.
Qed.

End GeneratorStates.

(** ** The class *)

Section Fit.

Context {E : Environment}.

Lemma shape0_tf_tensor (X : dataset) :
  shape0 (tf_tensor X) = Z.of_nat (length X).
Proof. destruct X; reflexivity. Qed.

Ltac unfold_monad :=
  unfold bind, ret, get_this, update_this, update_self,
    call_findABParams, call_nearestNeighbors, call_tf_zeros;
  cbn [this self random calls fst snd].

Lemma zeros_shape_ok (n : Z) :
  forallb (fun d => 0 <=? d) [1; n] = (0 <=? n).
Proof. cbn [forallb]. change (0 <=? 1) with true. now rewrite andb_true_r. Qed.

Lemma fit_unfold (X : dataset) (w : world) :
  fit X w =
    if passes_curve_step (this w) then
      let w1 := after_curve_params X w in
      let u := this w1 in
      let tX := tf_tensor X in
      if shape0 tX <=? nNeighbors u then
        if shape0 tX =? 1 then
          if 0 <=? nComponents u then
            (Normal Returns_this,
             World u (Globals (Some (tf_zeros [1; nComponents u])))
                   (random w1) (calls w1))
          else
            (Throw "Error: tf.zeros: negative dimension",
             World u (self w1) (random w1) (calls w1))
        else
          fit_neighbors tX
            (World (set__nNeighbors (shape0 tX - 1) u) (self w1) (random w1) (calls w1))
      else
        fit_neighbors tX
          (World (set__nNeighbors (nNeighbors u) u) (self w1) (random w1) (calls w1))
    else
      (Throw "ReferenceError: findABParams is not defined",
       World (set__rawData X (this w)) (self w) (random w) (calls w)).
Proof.
  unfold fit, after_curve_params, passes_curve_step. unfold_monad.
  change (a (set__rawData X (this w))) with (a (this w)).
  change (b (set__rawData X (this w))) with (b (this w)).
  destruct (is_undefined (a (this w)) || is_undefined (b (this w))).
  - unfold_monad. destruct findABParams_bound; cbn [negb andb]; [| reflexivity].
    destruct (findABParams (spread (set__rawData X (this w)))
                (minDist (set__rawData X (this w))) (random w)) as [[va vb] h'].
    cbn [this self random calls fst snd].
    destruct (_ <=? _); [destruct (_ =? _) |]; try reflexivity.
    rewrite zeros_shape_ok. destruct (0 <=? _); reflexivity.
  - cbn [this self random calls fst snd negb andb].
    destruct (_ <=? _); [destruct (_ =? _) |]; try reflexivity.
    rewrite zeros_shape_ok. destruct (0 <=? _); reflexivity.
Qed.

Lemma fit_neighbors_unfold (tX : tensor) (w : world) :
  fit_neighbors tX w =
    let u := this w in
    let k := default 0 (_nNeighbors u) in
    let r := nearestNeighbors tX k (metric u) (metricArgs u)
               (angularRPForest u) (random w) in
    let log :=
      calls w ++ [Call_nearestNeighbors tX k (metric u) (metricArgs u)
                    (angularRPForest u)] in
    match r.1 with
    | Normal knn =>
        (Normal Returns_undefined,
         World (set__RPForest knn.2
                  (set__KNNDists knn.1.2 (set__KNNIndices knn.1.1 u)))
               (self w) r.2 log)
    | Throw e => (Throw e, World u (self w) r.2 log)
    end.
Proof.
  unfold fit_neighbors. unfold_monad.
  destruct (nearestNeighbors _ _ _ _ _ _) as [[knn | e] h']; reflexivity.
Qed.

(** What the first three statements of [fit] do to the instance, on the
    paths that get past them. *)
Lemma after_curve_params_spec (X : dataset) (u : UMAP) (g : globals) (h : host) :
  let w1 := after_curve_params X (World u g h []) in
  hyper (this w1) = hyper u /\
  _rawData (this w1) = Some X /\
  _initialAlpha (this w1) = Some (learningRate u) /\
  _nNeighbors (this w1) = _nNeighbors u /\
  _KNNIndices (this w1) = _KNNIndices u /\
  _KNNDists (this w1) = _KNNDists u /\
  _RPForest (this w1) = _RPForest u /\
  embedding_ (this w1) = embedding_ u /\
  self w1 = g /\
  a (this w1) <> Undefined /\
  b (this w1) <> Undefined /\
  (is_undefined (a u) || is_undefined (b u) = false ->
   a (this w1) = a u /\ b (this w1) = b u) /\
  (is_undefined (a u) || is_undefined (b u) = true ->
   a (this w1) = Variable_ (findABParams (spread u) (minDist u) h).1.1 /\
   b (this w1) = Variable_ (findABParams (spread u) (minDist u) h).1.2) /\
  calls w1 =
    (if is_undefined (a u) || is_undefined (b u)
     then [Call_findABParams (spread u) (minDist u)] else []).
Proof.
  cbv zeta. unfold after_curve_params. cbn [this self random calls].
  change (a (set__rawData X u)) with (a u).
  change (b (set__rawData X u)) with (b u).
  destruct (a u) eqn:Ha, (b u) eqn:Hb; cbn;
    repeat split; try discriminate; try congruence; auto.
Qed.

(** The outcome of [fit], path by path.  The count handed to the
    neighbor search is written as a minimum. *)
Lemma fit_outcome (X : dataset) (u : UMAP) (g : globals) (h : host) :
  let w1 := after_curve_params X (World u g h []) in
  let N := Z.of_nat (length X) in
  let k := Z.min (nNeighbors u) (N - 1) in
  let r := nearestNeighbors (tf_tensor X) k (metric u) (metricArgs u)
             (angularRPForest u) (random w1) in
  let log := calls w1 ++ [Call_nearestNeighbors (tf_tensor X) k (metric u)
                            (metricArgs u) (angularRPForest u)] in
  run (fit X) u g h =
    if passes_curve_step u then
      if (N <=? nNeighbors u) && (N =? 1) then
        if 0 <=? nComponents u then
          (Normal Returns_this,
           World (this w1) (Globals (Some (tf_zeros [1; nComponents u])))
                 (random w1) (calls w1))
        else
          (Throw "Error: tf.zeros: negative dimension",
           World (this w1) g (random w1) (calls w1))
      else
        match r.1 with
        | Normal knn =>
            (Normal Returns_undefined,
             World (set__RPForest knn.2
                      (set__KNNDists knn.1.2
                         (set__KNNIndices knn.1.1 (set__nNeighbors k (this w1)))))
                   g r.2 log)
        | Throw e => (Throw e, World (set__nNeighbors k (this w1)) g r.2 log)
        end
    else
      (Throw "ReferenceError: findABParams is not defined",
       World (set__rawData X u) g h []).
Proof.
  cbv zeta. unfold run. rewrite fit_unfold. cbv zeta.
  cbn [this self random calls].
  destruct (passes_curve_step u); [| reflexivity].
  rewrite shape0_tf_tensor.
  destruct (after_curve_params_spec X u g h) as (Hh & _ & _ & _ & _ & _ & _ & _ & Hs & _).
  set (w1 := after_curve_params X _) in *.
  rewrite Hh, Hs.
  destruct (Z.leb_spec (Z.of_nat (length X)) (nNeighbors u)) as [Hle | Hgt];
    [destruct (Z.eqb_spec (Z.of_nat (length X)) 1) as [Heq | Hne] |];
    cbn [andb]; [destruct (0 <=? nComponents u); reflexivity | |];
    rewrite fit_neighbors_unfold; cbv zeta; cbn [this self random calls];
    change (_nNeighbors (set__nNeighbors ?v _)) with (Some v);
    change (hyper (set__nNeighbors _ ?v)) with (hyper v);
    cbn [default]; rewrite Hh.
  - rewrite (Z.min_r (nNeighbors u) (Z.of_nat (length X) - 1)) by lia.
    destruct (nearestNeighbors _ _ _ _ _ _) as [[knn | e] h2]; reflexivity.
  - rewrite (Z.min_l (nNeighbors u) (Z.of_nat (length X) - 1)) by lia.
    destruct (nearestNeighbors _ _ _ _ _ _) as [[knn | e] h2]; reflexivity.
Qed.

Lemma passes_curve_step_iff (u : UMAP) :
  passes_curve_step u = true <->
  (a u <> Undefined /\ b u <> Undefined) \/ findABParams_bound = true.
Proof.
  unfold passes_curve_step.
  destruct (a u), (b u), findABParams_bound; cbn; split; intros H;
    try reflexivity; try discriminate; auto;
    try (left; split; discriminate);
    destruct H as [[Ha Hb] | H]; congruence.
Qed.

Lemma short_circuit_iff (X : dataset) (u : UMAP) :
  (Z.of_nat (length X) <=? nNeighbors u) && (Z.of_nat (length X) =? 1) = true <->
  length X = 1%nat /\ 1 <= nNeighbors u.
Proof.
  rewrite andb_true_iff, Z.leb_le, Z.eqb_eq. split.
  - intros [Hle Heq]. split; lia.
  - intros [Hlen Hnn]. rewrite Hlen. cbn. lia.
Qed.

Ltac fit_paths X u g h :=
  rewrite ?(fit_outcome X u g h); cbv zeta;
  let Hspec := fresh "Hspec" in
  pose proof (after_curve_params_spec X u g h) as Hspec; cbv zeta in Hspec;
  destruct Hspec as (Hhyper & Hraw & Halpha & Hnn & Hidx & Hdst & Hfor & Hemb
                     & Hself & Hadef & Hbdef & Hkeep & Hfit & Hcalls);
  destruct (passes_curve_step u) eqn:Hpass;
  [ destruct ((Z.of_nat (length X) <=? nNeighbors u) && (Z.of_nat (length X) =? 1))
      eqn:Hshort;
    [ destruct (0 <=? nComponents u) eqn:Hzeros
    | destruct (nearestNeighbors (tf_tensor X) _ _ _ _ _).1 as [knn | e] eqn:Hsearch ]
  | ];
  unfold set__RPForest, set__KNNDists, set__KNNIndices, set__nNeighbors,
    set__rawData;
  cbn [fst snd this self random calls hyper a b _rawData _initialAlpha
       _nNeighbors _KNNIndices _KNNDists _RPForest embedding_].

Lemma fitTransform_run (X : dataset) (u : UMAP) (g : globals) (h : host) :
  run (fitTransform X) u g h =
    match run (fit X) u g h with
    | (Normal _, w) => (Normal (embedding_ (this w)), w)
    | (Throw e, w) => (Throw e, w)
    end.
Proof.
  unfold run, fitTransform, bind, get_this, ret.
  destruct (fit X _) as [[v | e] w]; reflexivity.
Qed.

(** [fit] reassigns none of the hyperparameters. *)
Lemma fit_hyper_frame (X : dataset) (u : UMAP) (g : globals) (h : host) :
  hyper (this (run (fit X) u g h).2) = hyper u.
Proof. fit_paths X u g h; auto. Qed.

(** [fit] assigns [this.embedding_] on no path. *)
Lemma fit_embedding_frame (X : dataset) (u : UMAP) (g : globals) (h : host) :
  embedding_ (this (run (fit X) u g h).2) = embedding_ u.
Proof. fit_paths X u g h; auto. Qed.

(** C1: on a dataset of one sample [fit] never sets the instance's
    published embedding: [this.embedding_] of a new instance is still
    undefined afterwards and [fitTransform] resolves to no tensor, for
    every configuration and every scope.  With [a] and [b] supplied,
    [1 <= nNeighbors] and [0 <= nComponents], the all-zero tensor of
    shape [(1, nComponents)] is stored in the global object
    ([self.embedding_]) instead, [fitTransform] resolves to undefined,
    and no call of [findABParams] or [nearestNeighbors] is made. *)
Theorem fit_single_sample (c : option config) (row : list float)
    (g : globals) (h : host) :
  let out := run (fitTransform [row]) (constructor c) g h in
  embedding_ (this out.2) = None /\
  (forall v, out.1 = Normal v -> v = None) /\
  (a (constructor c) <> Undefined -> b (constructor c) <> Undefined ->
   1 <= nNeighbors (constructor c) -> 0 <= nComponents (constructor c) ->
   out.1 = Normal None /\
   self out.2 = Globals (Some (tf_zeros [1; nComponents (constructor c)])) /\
   calls out.2 = []).
Proof.
  intros out. subst out. rewrite fitTransform_run.
  assert (Hnone : embedding_ (constructor c) = None) by reflexivity.
  fit_paths [row] (constructor c) g h; rewrite ?Hemb, ?Hnone;
    (split; [reflexivity |]);
    (split; [intros v Hv; congruence |]);
    intros Ha Hb Hn Hc.
  - rewrite Hcalls.
    assert (Hdef : is_undefined (a (constructor c)) ||
                   is_undefined (b (constructor c)) = false)
      by (destruct (a (constructor c)), (b (constructor c));
          try reflexivity; congruence).
    rewrite Hdef. auto.
  - apply Z.leb_gt in Hzeros. lia.
  - assert (Hyes : (Z.of_nat (length [row]) <=? nNeighbors (constructor c)) &&
                   (Z.of_nat (length [row]) =? 1) = true)
      by (apply short_circuit_iff; auto).
    congruence.
  - assert (Hyes : (Z.of_nat (length [row]) <=? nNeighbors (constructor c)) &&
                   (Z.of_nat (length [row]) =? 1) = true)
      by (apply short_circuit_iff; auto).
    congruence.
  - assert (Hyes : passes_curve_step (constructor c) = true)
      by (apply passes_curve_step_iff; auto).
    congruence.
Qed.

(** With the curve parameters settled, [fit] on [N >= 2] samples does
    clamp: it stores in [this._nNeighbors], and hands to
    [nearestNeighbors], the count [N - 1] when [N <= nNeighbors] and
    [nNeighbors] when [N > nNeighbors].  Its promise then completes as
    that call does. *)
Theorem fit_clamps_nNeighbors (u : UMAP) (X : dataset) (g : globals) (h : host) :
  2 <= Z.of_nat (length X) ->
  (a u <> Undefined /\ b u <> Undefined) \/ findABParams_bound = true ->
  exists (k : Z) (h' : host),
    _nNeighbors (this (run (fit X) u g h).2) = Some k /\
    last (calls (run (fit X) u g h).2) =
      Some (Call_nearestNeighbors (tf_tensor X) k (metric u) (metricArgs u)
              (angularRPForest u)) /\
    (run (fit X) u g h).1 =
      completion_map (fun _ => Returns_undefined)
        (nearestNeighbors (tf_tensor X) k (metric u) (metricArgs u)
           (angularRPForest u) h').1 /\
    (Z.of_nat (length X) <= nNeighbors u -> k = Z.of_nat (length X) - 1) /\
    (nNeighbors u < Z.of_nat (length X) -> k = nNeighbors u).
Proof.
  intros HN Hsettled. apply passes_curve_step_iff in Hsettled.
  exists (Z.min (nNeighbors u) (Z.of_nat (length X) - 1)).
  fit_paths X u g h; try congruence;
    try (apply short_circuit_iff in Hshort; destruct Hshort as [Hlen _];
         rewrite Hlen in HN; cbn in HN; lia);
    eexists; rewrite last_snoc, Hsearch; cbn [completion_map];
    repeat split; auto; lia.
Qed.


(** Every element of the target handed to [curveFit] is 0. *)
Lemma findABParams_target_elements (spread minDist : float) (i : nat) (y : float) :
  vals (findABParams_samples spread minDist).2 !! i = Some y -> y = 0%float.
Proof.
  unfold findABParams_samples. cbv zeta. cbn [snd].
  unfold tf_zeros. cbn [vals].
  intros Hy. apply lookup_replicate in Hy. tauto.
Qed.

(** C6, as the code has it: the constructor validates nothing.  For
    every argument it completes normally, and a supplied truthy
    [minDist], [spread] or [setOpMixRatio] is stored as given, whatever
    its relation to the others or to [[0, 1]]. *)
Theorem constructor_never_throws (c : config) :
  (forall (oc : option config) e, new_UMAP oc <> Throw e) /\
  (forall m, cfg_minDist c = Some m -> truthy m = true ->
             minDist (constructor (Some c)) = m) /\
  (forall s, cfg_spread c = Some s -> truthy s = true ->
             spread (constructor (Some c)) = s) /\
  (forall r, cfg_setOpMixRatio c = Some r -> truthy r = true ->
             setOpMixRatio (constructor (Some c)) = r).
Proof.
  split; [intros oc e; discriminate |].
  repeat split; intros v Hv Ht;
    unfold constructor; change (default empty_config (Some c)) with c;
    cbn [hyper minDist spread setOpMixRatio];
    rewrite Hv; unfold or_default; now rewrite Ht.
Qed.

(** Omitted properties take the documented defaults. *)
Lemma constructor_defaults :
  let u := constructor None in
  nNeighbors u = 15 /\ nComponents u = 2 /\ metric u = euclidean /\
  learningRate u = 1.0%float /\ init u = "spectral"%string /\
  minDist u = 0.1%float /\ spread u = 1.0%float /\
  setOpMixRatio u = 1.0%float /\ localConnectivity u = 1 /\
  repulsionStrength u = 1.0%float /\ negativeSampleRate u = 5 /\
  angularRPForest u = false /\ constructor (Some empty_config) = u.
Proof. cbv zeta. repeat split. Qed.

(** A supplied truthy value is kept by [x || d]. *)
Lemma or_default_truthy {A} `{Truthy A} (v d : A) :
  truthy v = true -> Some v .|| d = v.
Proof. intros Ht. unfold or_default. now rewrite Ht. Qed.

(** C9: [setOpMixRatio = 0.0] lies in [[0, 1]] (a pure fuzzy
    intersection, by the JSDoc), yet the constructor stores the default
    1.0 for it: [0.0 || 1.0] is [1.0]. *)
Theorem constructor_drops_zero_setOpMixRatio :
  cfg_setOpMixRatio config_zero_mix = Some 0.0%float /\
  setOpMixRatio (constructor (Some config_zero_mix)) = 1.0%float.
Proof. split; reflexivity. Qed.

(** C3: the tensor [yv] that [findABParams] hands to [curveFit] is
    [tf.zeros] of the shape of the 300 samples, for every [spread] and
    [minDist]: the two [where] results are dropped, so the target is 0
    at every sample, not 1.0 below [minDist] and the exponential decay
    above it. *)
Theorem findABParams_target_zero (spread minDist : float) (h : host) :
  (findABParams_samples spread minDist).1 =
    tf_linspace 0 (PrimFloat.mul spread 3) 300 /\
  (findABParams_samples spread minDist).2 =
    Tensor [300] (replicate 300 0%float) /\
  findABParams spread minDist h =
    (curveFit curve (tf_linspace 0 (PrimFloat.mul spread 3) 300)
       (Tensor [300] (replicate 300 0%float))
       (f32 (Math_random h).1, f32 (Math_random (Math_random h).2).1),
     (Math_random (Math_random h).2).2).
Proof.
  assert (Hs : findABParams_samples spread minDist =
               (tf_linspace 0 (PrimFloat.mul spread 3) 300,
                Tensor [300] (replicate 300 0%float))).
  { unfold findABParams_samples. cbv zeta. f_equal. }
  split; [now rewrite Hs |]. split; [now rewrite Hs |].
  unfold findABParams. rewrite Hs.
  destruct (Math_random h) as [ra h1]. cbn [fst snd].
  destruct (Math_random h1) as [rb h2]. reflexivity.
Qed.

End Fit.

(** ** The paths of [fit] *)

Section FitPaths.

Context {E : Environment}.

Ltac fit_paths X u g h :=
  rewrite ?(fit_outcome X u g h); cbv zeta;
  let Hspec := fresh "Hspec" in
  pose proof (after_curve_params_spec X u g h) as Hspec; cbv zeta in Hspec;
  destruct Hspec as (Hhyper & Hraw & Halpha & Hnn & Hidx & Hdst & Hfor & Hemb
                     & Hself & Hadef & Hbdef & Hkeep & Hfit & Hcalls);
  destruct (passes_curve_step u) eqn:Hpass;
  [ destruct ((Z.of_nat (length X) <=? nNeighbors u) && (Z.of_nat (length X) =? 1))
      eqn:Hshort;
    [ destruct (0 <=? nComponents u) eqn:Hzeros
    | destruct (nearestNeighbors (tf_tensor X) _ _ _ _ _).1 as [knn | e] eqn:Hsearch ]
  | ];
  unfold set__RPForest, set__KNNDists, set__KNNIndices, set__nNeighbors,
    set__rawData;
  cbn [fst snd this self random calls hyper a b _rawData _initialAlpha
       _nNeighbors _KNNIndices _KNNDists _RPForest embedding_].

(** X7: [fitTransform] adds nothing to [fit]: it rejects when [fit]
    rejects, with the same error, and otherwise resolves to the
    [embedding_] the instance held before the call; the instance, the
    global object and the calls made are those of [fit]. *)
Theorem fitTransform_result (X : dataset) (u : UMAP) (g : globals) (h : host) :
  (run (fitTransform X) u g h).1 =
    completion_map (fun _ => embedding_ u) (run (fit X) u g h).1 /\
  (run (fitTransform X) u g h).2 = (run (fit X) u g h).2.
Proof.
  rewrite fitTransform_run. fit_paths X u g h; rewrite ?Hemb; auto.
Qed.

(** X8: [fit] reassigns no hyperparameter, whichever path it takes and
    whether it resolves or rejects. *)
Theorem fit_hyperparameters_unchanged (X : dataset) (u : UMAP) (g : globals)
    (h : host) :
  hyper (this (run (fit X) u g h).2) = hyper u /\
  hyper (this (run (fitTransform X) u g h).2) = hyper u.
Proof.
  assert (Hfit : hyper (this (run (fit X) u g h).2) = hyper u)
    by apply fit_hyper_frame.
  split; [exact Hfit |].
  assert (Hft : (run (fitTransform X) u g h).2 = (run (fit X) u g h).2).
  { rewrite fitTransform_run. destruct (run (fit X) u g h) as [[v | e] w]; reflexivity. }
  now rewrite Hft.
Qed.

(** X9: [this._rawData] is [X] after [fit] on every path.
    [this._initialAlpha] is [this.learningRate] on every path that gets
    past the second statement, also when [tf.zeros] or the neighbor
    search throws later; when [fit] rejects on the unbound
    [findABParams], [this._initialAlpha] is as before the call. *)
Theorem fit_records_input (X : dataset) (u : UMAP) (g : globals) (h : host) :
  _rawData (this (run (fit X) u g h).2) = Some X /\
  _initialAlpha (this (run (fit X) u g h).2) =
    (if passes_curve_step u then Some (learningRate u) else _initialAlpha u).
Proof. fit_paths X u g h; auto. Qed.

(** X10: [fit] resolves to [this] exactly when it gets past the second
    statement, [X] has one row, [1 <= nNeighbors] and
    [0 <= nComponents]; it reaches the call of [nearestNeighbors]
    exactly when it gets past the second statement and [X] does not
    have one row with [1 <= nNeighbors].  A one-row input with [nNeighbors < 1] goes to
    the neighbor search. *)
Theorem fit_shortcut_iff (X : dataset) (u : UMAP) (g : globals) (h : host) :
  ((run (fit X) u g h).1 = Normal Returns_this <->
   passes_curve_step u = true /\ length X = 1%nat /\ 1 <= nNeighbors u /\
   0 <= nComponents u) /\
  (existsb is_nearestNeighbors (calls (run (fit X) u g h).2) = true <->
   passes_curve_step u = true /\ ~ (length X = 1%nat /\ 1 <= nNeighbors u)).
Proof.
  assert (Hlog : forall cs : bool,
            existsb is_nearestNeighbors
              (if cs then [Call_findABParams (spread u) (minDist u)] else []) = false)
    by (intros [|]; reflexivity).
  fit_paths X u g h; rewrite ?Hcalls, ?existsb_app, ?Hlog; cbn [existsb orb].
  - apply short_circuit_iff in Hshort. apply Z.leb_le in Hzeros.
    split; split; try tauto; discriminate.
  - apply short_circuit_iff in Hshort. apply Z.leb_gt in Hzeros.
    split; split; try discriminate; try tauto.
    intros (_ & _ & _ & Hc). lia.
  - assert (Hno : ~ (length X = 1%nat /\ 1 <= nNeighbors u))
      by (rewrite <- short_circuit_iff; congruence).
    split; split; try discriminate; tauto.
  - assert (Hno : ~ (length X = 1%nat /\ 1 <= nNeighbors u))
      by (rewrite <- short_circuit_iff; congruence).
    split; split; try discriminate; tauto.
  - split; split; try discriminate; intros [Hp _]; discriminate Hp.
Qed.

(** X11: [this._nNeighbors] is assigned exactly when [fit] goes to the
    neighbor search, and is then the smaller of [nNeighbors] and
    [N - 1], for every [N] (0 and 1 included); on the one-sample
    shortcut and when [fit] rejects on the unbound [findABParams] it
    is as before the call. *)
Theorem fit_effective_count (X : dataset) (u : UMAP) (g : globals) (h : host) :
  _nNeighbors (this (run (fit X) u g h).2) =
    if passes_curve_step u &&
       negb ((Z.of_nat (length X) <=? nNeighbors u) && (Z.of_nat (length X) =? 1))
    then Some (Z.min (nNeighbors u) (Z.of_nat (length X) - 1))
    else _nNeighbors u.
Proof. fit_paths X u g h; auto. Qed.

(** X12: an empty dataset is not rejected as such: with the curve
    parameters settled and [0 <= nNeighbors], [fit] on [[]] stores [-1]
    in [this._nNeighbors] and reaches the call of [nearestNeighbors] on
    the tensor of shape [[0]] with the count [-1]; no embedding is
    written. *)
Theorem fit_empty_dataset (u : UMAP) (g : globals) (h : host) :
  passes_curve_step u = true ->
  0 <= nNeighbors u ->
  _nNeighbors (this (run (fit []) u g h).2) = Some (-1) /\
  last (calls (run (fit []) u g h).2) =
    Some (Call_nearestNeighbors (Tensor [0] []) (-1) (metric u) (metricArgs u)
            (angularRPForest u)) /\
  self (run (fit []) u g h).2 = g /\
  embedding_ (this (run (fit []) u g h).2) = embedding_ u.
Proof.
  intros Hp Hnn0.
  assert (Hk : Z.min (nNeighbors u) (Z.of_nat (length (@nil (list float))) - 1) = -1)
    by (cbn; lia).
  fit_paths (@nil (list float)) u g h; try congruence;
    try (apply short_circuit_iff in Hshort; destruct Hshort as [Hlen _];
         discriminate Hlen);
    rewrite last_snoc, Hk; auto.
Qed.

(** X13: the calls of [findABParams] that [fit] makes and the calls
    of [nearestNeighbors] that it reaches, in order: one
    [findABParams(this.spread, this.minDist)] if [a] or [b] is
    undefined and the identifier is bound, then one [nearestNeighbors]
    on the count [min(nNeighbors, N - 1)] if [fit] gets past the second
    statement and does not take the one-sample shortcut; never more
    than one of each. *)
Theorem fit_calls (X : dataset) (u : UMAP) (g : globals) (h : host) :
  calls (run (fit X) u g h).2 =
    (if (is_undefined (a u) || is_undefined (b u)) && findABParams_bound
     then [Call_findABParams (spread u) (minDist u)] else []) ++
    (if passes_curve_step u &&
        negb ((Z.of_nat (length X) <=? nNeighbors u) && (Z.of_nat (length X) =? 1))
     then [Call_nearestNeighbors (tf_tensor X)
             (Z.min (nNeighbors u) (Z.of_nat (length X) - 1))
             (metric u) (metricArgs u) (angularRPForest u)]
     else []).
Proof.
  assert (Hlog : passes_curve_step u = true ->
            (if is_undefined (a u) || is_undefined (b u)
             then [Call_findABParams (spread u) (minDist u)] else []) =
            (if (is_undefined (a u) || is_undefined (b u)) && findABParams_bound
             then [Call_findABParams (spread u) (minDist u)] else [])).
  { unfold passes_curve_step.
    destruct (_ || _), findABParams_bound; cbn; intros Hp;
      try reflexivity; discriminate Hp. }
  assert (Hstuck : passes_curve_step u = false ->
            (is_undefined (a u) || is_undefined (b u)) && findABParams_bound = false).
  { unfold passes_curve_step.
    destruct (_ || _), findABParams_bound; cbn; intros Hp;
      try reflexivity; discriminate Hp. }
  fit_paths X u g h; rewrite ?Hcalls, ?Hlog, ?Hstuck, ?app_nil_r by reflexivity;
    reflexivity.
Qed.

(** X14: with [tf.tensor] taken to accept [X], [fit] rejects in one of
    three ways.  On the unbound
    [findABParams], when [a] or [b] is undefined: a [ReferenceError],
    with nothing assigned but [this._rawData].  In [tf.zeros], on the
    one-sample shortcut with [nComponents < 0]: nothing is written to
    the global object and [this._nNeighbors] is not assigned.  In the
    neighbor search, with the error it threw on the count
    [min(nNeighbors, N - 1)]: the three result properties are as
    before the call, while [this._nNeighbors] and the curve parameters
    have been assigned. *)
Theorem fit_rejects (X : dataset) (u : UMAP) (g : globals) (h : host) (err : string) :
  (run (fit X) u g h).1 = Throw err ->
  (passes_curve_step u = false /\
   err = "ReferenceError: findABParams is not defined"%string /\
   (run (fit X) u g h).2 = World (set__rawData X u) g h []) \/
  (passes_curve_step u = true /\
   length X = 1%nat /\ 1 <= nNeighbors u /\ nComponents u < 0 /\
   self (run (fit X) u g h).2 = g /\
   _nNeighbors (this (run (fit X) u g h).2) = _nNeighbors u) \/
  (passes_curve_step u = true /\
   (exists h', (nearestNeighbors (tf_tensor X)
                  (Z.min (nNeighbors u) (Z.of_nat (length X) - 1))
                  (metric u) (metricArgs u) (angularRPForest u) h').1 = Throw err) /\
   _KNNIndices (this (run (fit X) u g h).2) = _KNNIndices u /\
   _KNNDists (this (run (fit X) u g h).2) = _KNNDists u /\
   _RPForest (this (run (fit X) u g h).2) = _RPForest u /\
   _nNeighbors (this (run (fit X) u g h).2) =
     Some (Z.min (nNeighbors u) (Z.of_nat (length X) - 1)) /\
   a (this (run (fit X) u g h).2) <> Undefined /\
   b (this (run (fit X) u g h).2) <> Undefined).
Proof.
  fit_paths X u g h; intros Hthrow; try discriminate Hthrow.
  - right; left. apply short_circuit_iff in Hshort. apply Z.leb_gt in Hzeros.
    tauto.
  - right; right. injection Hthrow as ->.
    split; [reflexivity |]. split; [eexists; exact Hsearch |]. auto 10.
  - left. injection Hthrow as <-. auto.
Qed.

(** X15: when [fit] resolves to [undefined], the neighbor search has
    returned normally on the count [min(nNeighbors, N - 1)], and
    [this._KNNIndices], [this._KNNDists] and [this._RPForest] hold the
    three components of its result. *)
Theorem fit_resolves (X : dataset) (u : UMAP) (g : globals) (h : host) :
  (run (fit X) u g h).1 = Normal Returns_undefined ->
  exists h' knn,
    (nearestNeighbors (tf_tensor X)
       (Z.min (nNeighbors u) (Z.of_nat (length X) - 1))
       (metric u) (metricArgs u) (angularRPForest u) h').1 = Normal knn /\
    _KNNIndices (this (run (fit X) u g h).2) = Some knn.1.1 /\
    _KNNDists (this (run (fit X) u g h).2) = Some knn.1.2 /\
    _RPForest (this (run (fit X) u g h).2) = Some knn.2.
Proof.
  fit_paths X u g h; intros Hres; try discriminate Hres.
  eexists _, knn. split; [exact Hsearch |]. auto.
Qed.

(** X16: a [fit] that gets past its second statement leaves [this.a]
    and [this.b] defined, and a later [fit] on the instance, on any
    input, evaluates [findABParams] no more and leaves both as the
    first call left them.  A [fit] that rejects on the unbound
    [findABParams] leaves [this.a] and [this.b] as they were. *)
Theorem fit_fits_curve_once (X1 X2 : dataset) (u : UMAP) (g : globals)
    (h1 h2 : host) :
  (passes_curve_step u = true ->
   a (this (run (fit X1) u g h1).2) <> Undefined /\
   b (this (run (fit X1) u g h1).2) <> Undefined /\
   a (this (run (fit X2) (this (run (fit X1) u g h1).2)
              (self (run (fit X1) u g h1).2) h2).2) =
     a (this (run (fit X1) u g h1).2) /\
   b (this (run (fit X2) (this (run (fit X1) u g h1).2)
              (self (run (fit X1) u g h1).2) h2).2) =
     b (this (run (fit X1) u g h1).2) /\
   existsb is_findABParams
     (calls (run (fit X2) (this (run (fit X1) u g h1).2)
               (self (run (fit X1) u g h1).2) h2).2) = false) /\
  (passes_curve_step u = false ->
   a (this (run (fit X1) u g h1).2) = a u /\
   b (this (run (fit X1) u g h1).2) = b u).
Proof.
  split.
  - intros Hp.
    assert (Hfirst : a (this (run (fit X1) u g h1).2) <> Undefined /\
                     b (this (run (fit X1) u g h1).2) <> Undefined).
    { fit_paths X1 u g h1; try congruence; auto. }
    destruct Hfirst as [Ha1 Hb1].
    set (u1 := this (run (fit X1) u g h1).2) in *.
    set (g1 := self (run (fit X1) u g h1).2).
    assert (Hdef : is_undefined (a u1) || is_undefined (b u1) = false).
    { destruct (a u1), (b u1); try reflexivity; congruence. }
    assert (Hp1 : passes_curve_step u1 = true)
      by (unfold passes_curve_step; now rewrite Hdef).
    split; [exact Ha1 |]. split; [exact Hb1 |].
    fit_paths X2 u1 g1 h2; try congruence;
      destruct (Hkeep Hdef) as [Hka Hkb];
      rewrite ?Hcalls, ?Hdef, ?existsb_app; cbn; auto.
  - intros Hp. fit_paths X1 u g h1; try congruence. auto.
Qed.

End FitPaths.
(** ** The target of the curve fit, and the constructor *)

Section CurveTarget.

Context {E : Environment}.

Lemma findABParams_samples_eq (spread minDist : float) :
  findABParams_samples spread minDist =
    (tf_linspace 0 (PrimFloat.mul spread 3) 300, tf_zeros [300]).
Proof. reflexivity. Qed.

(** X17: [findABParams] does not depend on [minDist]: the target it
    fits against is all zeros and the samples are built from [spread]
    alone, so two calls with the same [spread] and the same state of
    [Math.random] return the same [a] and [b], whatever the two
    [minDist] are. *)
Theorem findABParams_ignores_minDist (spread minDist1 minDist2 : float) (h : host) :
  findABParams spread minDist1 h = findABParams spread minDist2 h.
Proof.
  unfold findABParams. now rewrite !findABParams_samples_eq.
Qed.

(** A one-element right operand is broadcast over the left one. *)
Lemma broadcast_scalar_r (f : float -> float -> float) (x : tensor)
    (sh : list Z) (v : float) :
  broadcast f x (Tensor sh [v]) = Tensor (shape x) ((fun u => f u v) <$> vals x).
Proof.
  unfold broadcast. cbn [vals].
  destruct (vals x) as [| u0 [| u1 us]]; reflexivity.
Qed.

(** A one-element left operand is broadcast over a longer right one. *)
Lemma broadcast_scalar_l (f : float -> float -> float) (sh : list Z)
    (u : float) (y : tensor) :
  (2 <= length (vals y))%nat ->
  broadcast f (Tensor sh [u]) y = Tensor (shape y) (f u <$> vals y).
Proof.
  unfold broadcast. cbn [vals].
  destruct (vals y) as [| v0 [| v1 vs]]; cbn; intros Hlen; try lia.
  reflexivity.
Qed.

Lemma linspace_sample_index (start stop : float) (num i : nat) (x : float) :
  vals (tf_linspace start stop num) !! i = Some x -> (i < num)%nat.
Proof.
  intros Hx. apply lookup_lt_Some in Hx.
  unfold tf_linspace in Hx. cbn [vals] in Hx.
  now rewrite length_fmap, length_seq in Hx.
Qed.

(** X18: the value of the first [where] expression of [findABParams],
    [yv.where(xv.less(minDist), ones)], is 0 at every sample below
    [minDist] and 1 at every other sample: [where] keeps the receiver
    [yv], which is all zeros, where the condition holds. *)
Theorem where_less_values (spread minDist : float) (i : nat) (x : float) :
  vals (tf_linspace 0 (PrimFloat.mul spread 3) 300) !! i = Some x ->
  vals (findABParams_where_less spread minDist) !! i =
    Some (if PrimFloat.ltb x (f32 minDist) then 0%float else 1%float).
Proof.
  intros Hx. pose proof (linspace_sample_index _ _ _ _ _ Hx) as Hi.
  unfold findABParams_where_less. cbv zeta.
  unfold tf_less, tf_scalar. rewrite broadcast_scalar_r.
  unfold tf_where, tf_zeros, tf_ones. cbn [vals shape].
  rewrite lookup_zip_with, list_lookup_fmap, Hx. cbn [fmap option_fmap option_map mbind option_bind].
  rewrite lookup_zip_with.
  change (size_of_shape [Z.of_nat 300]) with 300%nat.
  rewrite !lookup_replicate_2 by exact Hi.
  cbn [mbind option_bind fst snd].
  destruct (PrimFloat.ltb x (f32 minDist)); reflexivity.
Qed.

(** X19: the value of the second [where] expression,
    [yv.where(xv.greaterEqual(minDist), exp(...))], is 0 at every
    sample at or above [minDist] and the exponential
    [exp(0 - (x - minDist) / spread)] at every other sample. *)
Theorem where_greaterEqual_values (spread minDist : float) (i : nat) (x : float) :
  vals (tf_linspace 0 (PrimFloat.mul spread 3) 300) !! i = Some x ->
  vals (findABParams_where_greaterEqual spread minDist) !! i =
    Some (if PrimFloat.leb (f32 minDist) x then 0%float
          else k_exp (k_sub (f32 0)
                        (k_div (k_sub x (f32 minDist)) (f32 spread)))).
Proof.
  intros Hx. pose proof (linspace_sample_index _ _ _ _ _ Hx) as Hi.
  unfold findABParams_where_greaterEqual. cbv zeta.
  unfold tf_greaterEqual, tf_sub, tf_div, tf_exp, tf_scalar.
  rewrite !broadcast_scalar_r.
  rewrite broadcast_scalar_l
    by (cbn [vals]; rewrite !length_fmap; unfold tf_linspace; cbn [vals];
        rewrite length_fmap, length_seq; lia).
  unfold tf_where, tf_zeros. cbn [vals shape].
  rewrite lookup_zip_with, list_lookup_fmap, Hx.
  cbn [fmap option_fmap option_map mbind option_bind].
  rewrite lookup_zip_with.
  change (size_of_shape [Z.of_nat 300]) with 300%nat.
  rewrite lookup_replicate_2 by exact Hi.
  rewrite !list_lookup_fmap, Hx.
  cbn [fmap option_fmap option_map mbind option_bind fst snd].
  destruct (PrimFloat.leb (f32 minDist) x); reflexivity.
Qed.

(** The result of [x || d] is truthy when the default is. *)
Lemma or_default_result_truthy {A} `{Truthy A} (x : option A) (d : A) :
  truthy d = true -> truthy (x .|| d) = true.
Proof.
  intros Hd. unfold or_default.
  destruct x as [v |]; [| exact Hd].
  destruct (truthy v) eqn:Hv; [exact Hv | exact Hd].
Qed.

Lemma truthy_float_spec (x : float) :
  truthy x = true -> PrimFloat.eqb x 0 = false /\ PrimFloat.is_nan x = false.
Proof.
  unfold truthy, truthy_float. intros Ht.
  apply negb_true_iff, orb_false_iff in Ht. exact Ht.
Qed.


End CurveTarget.

(** ** Instances on the stand-in environments *)

#[local] Existing Instance replay.

Lemma rng_depends_on_state_only_witness :
  (forall r, r ∈ [(CallTauRandInt, 0%nat); (CallTauRand, 0%nat)].*2 ->
     is_Some (arrays (Memory {[0%nat := [42; 43; 44]]} tt) !! r)) /\
  (forall r, r ∈ [(CallTauRandInt, 0%nat); (CallTauRand, 0%nat)].*2 ->
     arrays (Memory {[0%nat := [42; 43; 44]]} tt) !! r =
     arrays (Memory (<[1%nat := [7; 7; 7]]> {[0%nat := [42; 43; 44]]}) 5%nat) !! r) /\
  exists outs m1' m2',
    rng_run_at [(CallTauRandInt, 0%nat); (CallTauRand, 0%nat)]
      (Memory {[0%nat := [42; 43; 44]]} tt) = Some (outs, m1') /\
    rng_run_at [(CallTauRandInt, 0%nat); (CallTauRand, 0%nat)]
      (Memory (<[1%nat := [7; 7; 7]]> {[0%nat := [42; 43; 44]]}) 5%nat) =
      Some (outs, m2').
Proof.
  assert (Hrefs : forall r, r ∈ [(CallTauRandInt, 0%nat); (CallTauRand, 0%nat)].*2 ->
                  r = 0%nat).
  { intros r Hr. cbn in Hr.
    repeat (apply elem_of_cons in Hr as [Hr | Hr]; [exact Hr |]).
    now apply elem_of_nil in Hr. }
  assert (Halloc : forall r, r ∈ [(CallTauRandInt, 0%nat); (CallTauRand, 0%nat)].*2 ->
                   is_Some (arrays (Memory {[0%nat := [42; 43; 44]]} tt) !! r)).
  { intros r Hr. rewrite (Hrefs r Hr). cbn [arrays].
    rewrite lookup_singleton_eq. eauto. }
  assert (Hagree : forall r, r ∈ [(CallTauRandInt, 0%nat); (CallTauRand, 0%nat)].*2 ->
     arrays (Memory {[0%nat := [42; 43; 44]]} tt) !! r =
     arrays (Memory (<[1%nat := [7; 7; 7]]> {[0%nat := [42; 43; 44]]}) 5%nat) !! r).
  { intros r Hr. rewrite (Hrefs r Hr). cbn [arrays].
    now rewrite lookup_insert_ne by discriminate. }
  split; [exact Halloc |]. split; [exact Hagree |].
  destruct (rng_depends_on_state_only
              [(CallTauRandInt, 0%nat); (CallTauRand, 0%nat)]
              (Memory {[0%nat := [42; 43; 44]]} tt)
              (Memory (<[1%nat := [7; 7; 7]]> {[0%nat := [42; 43; 44]]}) 5%nat)
              Halloc Hagree)
    as (outs & m1' & m2' & Hrun1 & Hrun2 & _).
  exists outs, m1', m2'. split; [exact Hrun1 | exact Hrun2].
Defined.

Lemma fit_single_sample_witness :
  a (@constructor replay (Some config_a_and_b)) <> Undefined /\
  b (@constructor replay (Some config_a_and_b)) <> Undefined /\
  1 <= nNeighbors (@constructor replay (Some config_a_and_b)) /\
  0 <= nComponents (@constructor replay (Some config_a_and_b)) /\
  (run (fitTransform [[1%float; 2%float]]) (@constructor replay (Some config_a_and_b))
     (Globals None) []).1 = Normal None /\
  self (run (fitTransform [[1%float; 2%float]])
          (@constructor replay (Some config_a_and_b)) (Globals None) []).2 =
    Globals (Some (tf_zeros [1; 2])).
Proof.
  assert (Ha : a (@constructor replay (Some config_a_and_b)) <> Undefined)
    by discriminate.
  assert (Hb : b (@constructor replay (Some config_a_and_b)) <> Undefined)
    by discriminate.
  assert (Hn : 1 <= nNeighbors (@constructor replay (Some config_a_and_b)))
    by (cbn; lia).
  assert (Hc : 0 <= nComponents (@constructor replay (Some config_a_and_b)))
    by (cbn; lia).
  repeat (split; [assumption |]).
  destruct (fit_single_sample (Some config_a_and_b) [1%float; 2%float]
              (Globals None) ([] : @host replay))
    as (_ & _ & Hslip).
  destruct (Hslip Ha Hb Hn Hc) as (Hres & Hself & _).
  split; [exact Hres | exact Hself].
Defined.

(** With the default configuration, in the scope of the sources, the
    same call rejects on [findABParams] and writes no embedding at
    all. *)
Example fit_single_sample_default_rejects :
  (run (fitTransform [[1%float; 2%float]]) (@constructor replay None)
     (Globals None) []).1 =
    Throw "ReferenceError: findABParams is not defined" /\
  self (run (fitTransform [[1%float; 2%float]]) (@constructor replay None)
          (Globals None) []).2 = Globals None.
Proof. split; reflexivity. Qed.

Lemma fit_clamps_nNeighbors_witness :
  2 <= Z.of_nat (length [[1%float; 2%float]; [3%float; 4%float]]) /\
  ((a (@constructor replay (Some config_a_and_b)) <> Undefined /\
    b (@constructor replay (Some config_a_and_b)) <> Undefined) \/
   @findABParams_bound replay = true) /\
  (exists (k : Z) (h' : @host replay),
    _nNeighbors (this (run (fit [[1%float; 2%float]; [3%float; 4%float]])
                         (constructor (Some config_a_and_b)) (Globals None) []).2) =
      Some k /\
    (run (fit [[1%float; 2%float]; [3%float; 4%float]])
       (constructor (Some config_a_and_b)) (Globals None) []).1 =
      completion_map (fun _ => Returns_undefined)
        (nearestNeighbors (tf_tensor [[1%float; 2%float]; [3%float; 4%float]]) k
           (metric (constructor (Some config_a_and_b)))
           (metricArgs (constructor (Some config_a_and_b)))
           (angularRPForest (constructor (Some config_a_and_b))) h').1 /\
    (Z.of_nat (length [[1%float; 2%float]; [3%float; 4%float]])
       <= nNeighbors (constructor (Some config_a_and_b)) ->
     k = Z.of_nat (length [[1%float; 2%float]; [3%float; 4%float]]) - 1)).
Proof.
  assert (HN : 2 <= Z.of_nat (length [[1%float; 2%float]; [3%float; 4%float]]))
    by (cbn; lia).
  assert (Hab : (a (@constructor replay (Some config_a_and_b)) <> Undefined /\
                 b (@constructor replay (Some config_a_and_b)) <> Undefined) \/
                @findABParams_bound replay = true)
    by (left; split; discriminate).
  split; [exact HN |]. split; [exact Hab |].
  destruct (fit_clamps_nNeighbors (@constructor replay (Some config_a_and_b))
              [[1%float; 2%float]; [3%float; 4%float]] (Globals None)
              ([] : @host replay) HN Hab)
    as (k & h' & Hk & _ & Hres & Hle & _).
  exists k, h'. auto.
Defined.

(** C7: on two samples with the default [nNeighbors = 15], in the scope
    of the sources, [fit] does clamp the count to [N - 1 = 1] but then
    fails: it rejects because [nearestNeighbors] is not defined.  With
    the default configuration it rejects earlier, on [findABParams],
    before any count is assigned. *)
Theorem fit_two_samples_rejects :
  _nNeighbors (this (run (fit [[1%float; 2%float]; [3%float; 4%float]])
                       (@constructor replay (Some config_a_and_b))
                       (Globals None) []).2) = Some 1 /\
  (run (fit [[1%float; 2%float]; [3%float; 4%float]])
     (@constructor replay (Some config_a_and_b)) (Globals None) []).1 =
    Throw "ReferenceError: nearestNeighbors is not defined" /\
  (run (fit [[1%float; 2%float]; [3%float; 4%float]])
     (@constructor replay None) (Globals None) []).1 =
    Throw "ReferenceError: findABParams is not defined" /\
  _nNeighbors (this (run (fit [[1%float; 2%float]; [3%float; 4%float]])
                       (@constructor replay None) (Globals None) []).2) = None.
Proof. repeat split. Qed.



(** Two invalid configurations, [minDist > spread] and
    [setOpMixRatio > 1]: [new UMAP(config)] completes normally and keeps
    the values. *)
Lemma constructor_accepts_invalid :
  @new_UMAP replay (Some config_minDist_above_spread) =
    Normal (constructor (Some config_minDist_above_spread)) /\
  PrimFloat.ltb (spread (@constructor replay (Some config_minDist_above_spread)))
                (minDist (@constructor replay (Some config_minDist_above_spread)))
    = true /\
  @new_UMAP replay (Some config_mix_out_of_range) =
    Normal (constructor (Some config_mix_out_of_range)) /\
  PrimFloat.ltb 1 (setOpMixRatio (@constructor replay (Some config_mix_out_of_range)))
    = true.
Proof. repeat split. Qed.

Lemma constructor_never_throws_witness :
  minDist (@constructor replay (Some config_minDist_above_spread)) = 2.0%float /\
  spread (@constructor replay (Some config_minDist_above_spread)) = 1.0%float /\
  setOpMixRatio (@constructor replay (Some config_mix_out_of_range)) = 2.0%float.
Proof.
  pose proof (@constructor_never_throws replay config_minDist_above_spread)
    as (_ & HminDist & Hspread & _).
  pose proof (@constructor_never_throws replay config_mix_out_of_range)
    as (_ & _ & _ & Hmix).
  split; [| split].
  - apply HminDist; reflexivity.
  - apply Hspread; reflexivity.
  - apply Hmix; reflexivity.
Defined.

(** ** Instances of the further properties *)

Lemma tauRandInt_small_seed_witness :
  0 <= 1 < 2 /\ 0 <= 7 < 8 /\ 0 <= 15 < 16 /\
  tauRandInt [1; 7; 15] = (0, [0; 0; 0]).
Proof.
  repeat (split; [lia |]).
  apply (tauRandInt_small_seed 1 7 15); lia.
Defined.

Lemma rng_run_small_seed_witness :
  0 <= 1 < 2 /\ 0 <= 7 < 8 /\ 0 <= 15 < 16 /\
  (rng_run [CallTauRand; CallTauRandInt] [1; 7; 15]).2 = [0; 0; 0].
Proof.
  repeat (split; [lia |]).
  apply (rng_run_small_seed 1 7 15 CallTauRand [CallTauRandInt]); lia.
Defined.

Lemma rng_state_by_count_witness :
  length [CallTauRand; CallTauRandInt] = length [CallTauRandInt; CallTauRandInt] /\
  (rng_run [CallTauRand; CallTauRandInt] [42; 43; 44]).2 =
    (rng_run [CallTauRandInt; CallTauRandInt] [42; 43; 44]).2.
Proof.
  split; [reflexivity |].
  apply (rng_state_by_count [CallTauRand; CallTauRandInt]
           [CallTauRandInt; CallTauRandInt] [42; 43; 44]).
  reflexivity.
Defined.

Lemma fit_shortcut_iff_witness :
  (run (fit [[1%float; 2%float]]) (@constructor replay (Some config_a_and_b))
     (Globals None) []).1 = Normal Returns_this /\
  existsb is_nearestNeighbors
    (calls (run (fit [[1%float; 2%float]])
              (@constructor replay_search (Some config_negative_nNeighbors))
              (Globals None) []).2) = true.
Proof.
  split.
  - apply (@fit_shortcut_iff replay [[1%float; 2%float]]
             (@constructor replay (Some config_a_and_b)) (Globals None) []).
    repeat split; cbn; lia.
  - apply (@fit_shortcut_iff replay_search [[1%float; 2%float]]
             (@constructor replay_search (Some config_negative_nNeighbors))
             (Globals None) []).
    split; [reflexivity |].
    intros [_ Hnn]. cbn in Hnn. lia.
Defined.

Lemma fit_empty_dataset_witness :
  passes_curve_step (@constructor replay (Some config_a_and_b)) = true /\
  0 <= nNeighbors (@constructor replay (Some config_a_and_b)) /\
  _nNeighbors (this (run (fit []) (@constructor replay (Some config_a_and_b))
                       (Globals None) []).2) = Some (-1).
Proof.
  split; [reflexivity |]. split; [cbn; lia |].
  apply (fit_empty_dataset (@constructor replay (Some config_a_and_b))
           (Globals None) []).
  - reflexivity.
  - cbn. lia.
Defined.

Lemma fit_rejects_witness :
  (run (fit [[1%float; 2%float]; [3%float; 4%float]]) (@constructor replay None)
     (Globals None) []).1 =
    Throw "ReferenceError: findABParams is not defined" /\
  (run (fit [[1%float; 2%float]])
     (@constructor replay (Some config_negative_nComponents))
     (Globals None) []).1 = Throw "Error: tf.zeros: negative dimension" /\
  (run (fit [[1%float; 2%float]; [3%float; 4%float]])
     (@constructor replay (Some config_a_and_b)) (Globals None) []).1 =
    Throw "ReferenceError: nearestNeighbors is not defined" /\
  (passes_curve_step (@constructor replay None) = false \/
   passes_curve_step (@constructor replay None) = true).
Proof.
  split; [reflexivity |]. split; [reflexivity |]. split; [reflexivity |].
  destruct (fit_rejects [[1%float; 2%float]; [3%float; 4%float]]
              (@constructor replay None) (Globals None) ([] : @host replay)
              "ReferenceError: findABParams is not defined" eq_refl)
    as [(Hp & _) | [(Hp & _) | (Hp & _)]]; auto.
Defined.

Lemma fit_resolves_witness :
  (run (fit [[1%float; 2%float]; [3%float; 4%float]])
     (@constructor replay_search None) (Globals None) []).1 =
    Normal Returns_undefined /\
  exists (h' : @host replay_search) knn,
    (@nearestNeighbors replay_search
       (tf_tensor [[1%float; 2%float]; [3%float; 4%float]])
       (Z.min (nNeighbors (@constructor replay_search None))
          (Z.of_nat (length [[1%float; 2%float]; [3%float; 4%float]]) - 1))
       (metric (@constructor replay_search None))
       (metricArgs (@constructor replay_search None))
       (angularRPForest (@constructor replay_search None)) h').1 = Normal knn /\
    _KNNIndices (this (run (fit [[1%float; 2%float]; [3%float; 4%float]])
                         (@constructor replay_search None) (Globals None) []).2) =
      Some knn.1.1 /\
    _KNNDists (this (run (fit [[1%float; 2%float]; [3%float; 4%float]])
                       (@constructor replay_search None) (Globals None) []).2) =
      Some knn.1.2 /\
    _RPForest (this (run (fit [[1%float; 2%float]; [3%float; 4%float]])
                       (@constructor replay_search None) (Globals None) []).2) =
      Some knn.2.
Proof.
  split; [reflexivity |].
  apply (@fit_resolves replay_search [[1%float; 2%float]; [3%float; 4%float]]
           (@constructor replay_search None) (Globals None) []).
  reflexivity.
Defined.

Lemma fit_fits_curve_once_witness :
  passes_curve_step (@constructor replay_search None) = true /\
  a (this (run (fit [[1%float; 2%float]]) (@constructor replay_search None)
             (Globals None) [0.25%float; 0.5%float]).2) <> Undefined /\
  passes_curve_step (@constructor replay None) = false /\
  a (this (run (fit [[1%float; 2%float]]) (@constructor replay None)
             (Globals None) [0.25%float; 0.5%float]).2) =
    a (@constructor replay None).
Proof.
  destruct (@fit_fits_curve_once replay_search [[1%float; 2%float]]
              [[1%float; 2%float]] (@constructor replay_search None)
              (Globals None) [0.25%float; 0.5%float] [])
    as [Hpass _].
  destruct (@fit_fits_curve_once replay [[1%float; 2%float]]
              [[1%float; 2%float]] (@constructor replay None)
              (Globals None) [0.25%float; 0.5%float] [])
    as [_ Hstuck].
  destruct (Hpass eq_refl) as (Ha & _).
  destruct (Hstuck eq_refl) as (Hka & _).
  split; [reflexivity |]. split; [exact Ha |]. split; [reflexivity |]. exact Hka.
Defined.

Lemma where_less_values_witness :
  vals (@tf_linspace replay 0 (PrimFloat.mul 1 3) 300) !! 0%nat = Some 0%float /\
  vals (@findABParams_where_less replay 1 0.1) !! 0%nat = Some 0%float.
Proof.
  split; [reflexivity |].
  apply (@where_less_values replay 1%float 0.1%float 0%nat 0%float).
  reflexivity.
Defined.

Lemma where_greaterEqual_values_witness :
  vals (@tf_linspace replay 0 (PrimFloat.mul 1 3) 300) !! 299%nat = Some 0%float /\
  vals (@findABParams_where_greaterEqual replay 1 0.1) !! 299%nat =
    Some (PrimFloat.sub 0 (PrimFloat.div (PrimFloat.sub 0 0.1) 1)).
Proof.
  split; [reflexivity |].
  apply (@where_greaterEqual_values replay 1%float 0.1%float 299%nat 0%float).
  reflexivity.
Defined.
